(** * flask-task-manager: entities, repositories, services and resources

    A shallow embedding of the three layers of the application
    ([app/db], [app/service], [app/routes]) together with the properties
    of the task audit trail, the boundary validation and the sorting
    helpers.

    The relational engine behind SQLAlchemy is not part of the repository.
    It is modelled here by a record of five tables, each a list of rows in
    insertion order, with the constraints that [app/db/entity.py] declares
    (primary keys, NOT NULL columns, foreign keys).  Whether foreign keys
    are acted upon is a property of the store ([enforce_fk]); every
    statement below holds for both settings.  An [ORDER BY] is answered by
    a stable sort of the table. *)

From Stdlib Require Import ZArith List String Ascii Bool Lia Permutation Sorted.
From Stdlib Require Import DecimalString.
Import ListNotations.

Local Open Scope Z_scope.

(** ** Strings *)

Notation "a +++ b" := (String.append a b) (at level 60, right associativity).

(** [str.upper()] on the ASCII range: the letters a..z are moved to A..Z,
    every other character is kept. *)
Definition upper_ascii (c : ascii) : ascii :=
  let n := nat_of_ascii c in
  if ((97 <=? n) && (n <=? 122))%nat then ascii_of_nat (n - 32) else c.

Fixpoint upper (s : string) : string :=
  match s with
  | EmptyString => EmptyString
  | String c r => String (upper_ascii c) (upper r)
  end.

(** ** app/db/entity.py *)

(** Dates are day numbers, timestamps are clock readings. *)
Definition date := Z.
Definition datetime := Z.

Module ProjectStatusEnum.
Inductive t := PLANNED | IN_PROGRESS | COMPLETED | ON_HOLD | CANCELLED | ARCHIVED.

Definition name (m : t) : string :=
  match m with
  | PLANNED => "PLANNED"
  | IN_PROGRESS => "IN_PROGRESS"
  | COMPLETED => "COMPLETED"
  | ON_HOLD => "ON_HOLD"
  | CANCELLED => "CANCELLED"
  | ARCHIVED => "ARCHIVED"
  end.

Definition value (m : t) : string :=
  match m with
  | PLANNED => "Planned"
  | IN_PROGRESS => "In Progress"
  | COMPLETED => "Completed"
  | ON_HOLD => "On Hold"
  | CANCELLED => "Cancelled"
  | ARCHIVED => "Archived"
  end.

Definition members : list t :=
  [PLANNED; IN_PROGRESS; COMPLETED; ON_HOLD; CANCELLED; ARCHIVED].

(** [ProjectStatusEnum[key]]: lookup of a member by its name; [None] is
    the [KeyError] of the subscript. *)
Definition getitem (key : string) : option t :=
  find (fun m => String.eqb (name m) key) members.
End ProjectStatusEnum.

Module TaskStatusEnum.
Inductive t :=
  TO_DO | IN_PROGRESS | WAITING_FOR_APPROVAL | BLOCKED | COMPLETED | CANCELLED.

Definition name (m : t) : string :=
  match m with
  | TO_DO => "TO_DO"
  | IN_PROGRESS => "IN_PROGRESS"
  | WAITING_FOR_APPROVAL => "WAITING_FOR_APPROVAL"
  | BLOCKED => "BLOCKED"
  | COMPLETED => "COMPLETED"
  | CANCELLED => "CANCELLED"
  end.

Definition value (m : t) : string :=
  match m with
  | TO_DO => "To Do"
  | IN_PROGRESS => "In Progress"
  | WAITING_FOR_APPROVAL => "Waiting for Approval"
  | BLOCKED => "Blocked"
  | COMPLETED => "Completed"
  | CANCELLED => "Cancelled"
  end.

Definition members : list t :=
  [TO_DO; IN_PROGRESS; WAITING_FOR_APPROVAL; BLOCKED; COMPLETED; CANCELLED].

(** [TaskStatusEnum[key]]: [None] is the [KeyError] of the subscript. *)
Definition getitem (key : string) : option t :=
  find (fun m => String.eqb (name m) key) members.
End TaskStatusEnum.

(** An entity carries [id = None] until the session has flushed it. *)

Module UserEntity.
Record t := mk {
  id : option Z;
  name : option string;
  surname : string;
  email : string
}.
Definition with_id (i : Z) (e : t) : t :=
  mk (Some i) (name e) (surname e) (email e).
End UserEntity.

Module ProjectEntity.
Record t := mk {
  id : option Z;
  name : string;
  description : string;
  start_date : date;
  end_date : option date;
  status : ProjectStatusEnum.t;
  user_id : Z
}.
Definition with_id (i : Z) (e : t) : t :=
  mk (Some i) (name e) (description e) (start_date e) (end_date e)
     (status e) (user_id e).
End ProjectEntity.

Module TaskEntity.
Record t := mk {
  id : option Z;
  title : string;
  description : option string;
  start_date : option date;
  end_date : option date;
  status : TaskStatusEnum.t;
  project_id : Z
}.
Definition with_id (i : Z) (e : t) : t :=
  mk (Some i) (title e) (description e) (start_date e) (end_date e)
     (status e) (project_id e).
(** The attribute assignment [task.status = new_status]. *)
Definition set_status (st : TaskStatusEnum.t) (e : t) : t :=
  mk (id e) (title e) (description e) (start_date e) (end_date e)
     st (project_id e).
End TaskEntity.

Module CommentEntity.
Record t := mk {
  id : option Z;
  content : string;
  creation_date : datetime;
  task_id : Z
}.
Definition with_id (i : Z) (e : t) : t :=
  mk (Some i) (content e) (creation_date e) (task_id e).
End CommentEntity.

Module TaskHistoryEntity.
Record t := mk {
  id : option Z;
  change_description : string;
  change_date : datetime;
  task_id : option Z
}.
Definition with_id (i : Z) (e : t) : t :=
  mk (Some i) (change_description e) (change_date e) (task_id e).
(** The action of [ondelete='SET NULL'] on one row. *)
Definition set_null (e : t) : t :=
  mk (id e) (change_description e) (change_date e) None.
End TaskHistoryEntity.

(** ** The store *)

Record Store := mkStore {
  users : list UserEntity.t;
  projects : list ProjectEntity.t;
  tasks : list TaskEntity.t;
  comments : list CommentEntity.t;
  task_history : list TaskHistoryEntity.t;
  enforce_fk : bool
}.

(** ** Exceptions and the state-and-exception monad

    A raised exception leaves the store as the commits made so far have
    left it: nothing in the application rolls back. *)

Inductive PyError :=
| ValueError (msg : string)
| KeyError (key : string)
| TypeError (msg : string)
| AttributeError (msg : string)
| IntegrityError.

Inductive Outcome (A : Type) :=
| Return (a : A)
| Raise (e : PyError).
Arguments Return {A} a.
Arguments Raise {A} e.

Definition M (A : Type) : Type := Store -> Outcome A * Store.

Definition ret {A} (a : A) : M A := fun s => (Return a, s).
Definition raise {A} (e : PyError) : M A := fun s => (Raise e, s).
Definition bind {A B} (c : M A) (k : A -> M B) : M B :=
  fun s =>
    match c s with
    | (Return a, s1) => k a s1
    | (Raise e, s1) => (Raise e, s1)
    end.
(** A query that cannot raise. *)
Definition query {A} (q : Store -> A) : M A := fun s => (Return (q s), s).

Notation "x <- c ;; k" := (bind c (fun x => k))
  (at level 61, c at next level, right associativity).
Notation "c ;;; k" := (bind c (fun _ => k))
  (at level 61, right associativity).

Definition is_ValueError (e : PyError) : bool :=
  match e with ValueError _ => true | _ => false end.

(** ** app/db/repository.py *)

(** What the mapper of an entity type knows about its table: where the
    rows live, the primary key, the declared constraints checked when a
    row is written, and what happens to referencing rows when a row is
    deleted ([None]: the engine refuses the delete).

    [constraints s old e] is the check made when [e] is written; [old] is
    the row that [e] replaces, if any.  A NOT NULL column is checked on
    every write, a foreign key when the row is new or the key column has
    changed. *)
Class Model (T : Type) := {
  pk : T -> option Z;
  with_pk : Z -> T -> T;
  rows : Store -> list T;
  set_rows : list T -> Store -> Store;
  constraints : Store -> option T -> T -> bool;
  unlink : Z -> Store -> option Store
}.

Definition has_pk {T} `{Model T} (entity_id : Z) (e : T) : bool :=
  match pk e with
  | Some i => i =? entity_id
  | None => false
  end.

(** The key given to a new row: larger than every key in the table. *)
Definition next_pk {T} `{Model T} (l : list T) : Z :=
  1 + fold_right (fun e m => match pk e with Some i => Z.max i m | None => m end) 0 l.

(** Some row of [l] has [parent_id] in its column [fk]. *)
Definition references {T} (fk : T -> option Z) (parent_id : Z) (l : list T) : bool :=
  existsb (fun e => match fk e with Some i => i =? parent_id | None => false end) l.

(** The foreign key [fk] of [e], pointing into the rows [parents], is
    acceptable: the store does not enforce keys, or the column is NULL, or
    it is the one the replaced row had, or the parent row exists. *)
Definition fk_ok {T P} (s : Store) (fk : T -> option Z) (old : option T) (e : T)
    (parent_pk : P -> option Z) (parents : list P) : bool :=
  negb (enforce_fk s)
  || match fk e with
     | None => true
     | Some i =>
         match old with
         | Some o => match fk o with Some j => j =? i | None => false end
         | None => false
         end
         || references parent_pk i parents
     end.

(** [ondelete='SET NULL'] for the rows of [task_history] that point to the
    task [task_id]. *)
Definition set_null_where (task_id : Z) (h : TaskHistoryEntity.t) : TaskHistoryEntity.t :=
  match TaskHistoryEntity.task_id h with
  | Some j => if j =? task_id then TaskHistoryEntity.set_null h else h
  | None => h
  end.

(** [users]: [name] is NOT NULL; [projects.user_id] refers to it with no
    [ondelete] action, so a user who still owns projects cannot be removed
    from a store that enforces keys. *)
#[export] Instance UserModel : Model UserEntity.t := {|
  pk := UserEntity.id;
  with_pk := UserEntity.with_id;
  rows := users;
  set_rows := fun l s =>
    mkStore l (projects s) (tasks s) (comments s) (task_history s) (enforce_fk s);
  constraints := fun _ _ e =>
    match UserEntity.name e with Some _ => true | None => false end;
  unlink := fun i s =>
    if enforce_fk s && references (fun p => Some (ProjectEntity.user_id p)) i (projects s)
    then None else Some s
|}.

(** [projects]: [user_id] is a foreign key into [users]; [tasks.project_id]
    refers to it with no [ondelete] action. *)
#[export] Instance ProjectModel : Model ProjectEntity.t := {|
  pk := ProjectEntity.id;
  with_pk := ProjectEntity.with_id;
  rows := projects;
  set_rows := fun l s =>
    mkStore (users s) l (tasks s) (comments s) (task_history s) (enforce_fk s);
  constraints := fun s old e =>
    fk_ok s (fun p => Some (ProjectEntity.user_id p)) old e UserEntity.id (users s);
  unlink := fun i s =>
    if enforce_fk s && references (fun t => Some (TaskEntity.project_id t)) i (tasks s)
    then None else Some s
|}.

(** [tasks]: [project_id] is a foreign key into [projects].
    [comments.task_id] refers to it, NOT NULL and with no [ondelete]
    action: a task that still has comments cannot be removed from a store
    that enforces keys.  [task_history.task_id] refers to it with
    [ondelete='SET NULL']. *)
#[export] Instance TaskModel : Model TaskEntity.t := {|
  pk := TaskEntity.id;
  with_pk := TaskEntity.with_id;
  rows := tasks;
  set_rows := fun l s =>
    mkStore (users s) (projects s) l (comments s) (task_history s) (enforce_fk s);
  constraints := fun s old e =>
    fk_ok s (fun t => Some (TaskEntity.project_id t)) old e ProjectEntity.id (projects s);
  unlink := fun i s =>
    if enforce_fk s
    then
      if references (fun c => Some (CommentEntity.task_id c)) i (comments s)
      then None
      else Some (mkStore (users s) (projects s) (tasks s) (comments s)
                   (map (set_null_where i) (task_history s)) (enforce_fk s))
    else Some s
|}.

(** [comments]: [task_id] is a foreign key into [tasks]. *)
#[export] Instance CommentModel : Model CommentEntity.t := {|
  pk := CommentEntity.id;
  with_pk := CommentEntity.with_id;
  rows := comments;
  set_rows := fun l s =>
    mkStore (users s) (projects s) (tasks s) l (task_history s) (enforce_fk s);
  constraints := fun s old e =>
    fk_ok s (fun c => Some (CommentEntity.task_id c)) old e TaskEntity.id (tasks s);
  unlink := fun _ s => Some s
|}.

(** [task_history]: [task_id] is a nullable foreign key into [tasks]. *)
#[export] Instance TaskHistoryModel : Model TaskHistoryEntity.t := {|
  pk := TaskHistoryEntity.id;
  with_pk := TaskHistoryEntity.with_id;
  rows := task_history;
  set_rows := fun l s =>
    mkStore (users s) (projects s) (tasks s) (comments s) l (enforce_fk s);
  constraints := fun s old e =>
    fk_ok s TaskHistoryEntity.task_id old e TaskEntity.id (tasks s);
  unlink := fun _ s => Some s
|}.

(** *** CrudRepositoryORM *)

Module CrudRepositoryORM.
Section Generic.
Context {T : Type} `{Model T}.

(** [session.query(entity_type).get(entity_id)] *)
Definition find_by_id (entity_id : Z) (s : Store) : option T :=
  find (has_pk entity_id) (rows s).

(** [session.query(entity_type).all()] *)
Definition find_all (s : Store) : list T := rows s.

(** [session.add(entity); session.commit()].  A transient entity is
    inserted under a new primary key, a persistent one overwrites its
    row.  The entity is returned as the session leaves it, that is with
    its primary key set (the source reads [task.id] after the call). *)
Definition save_or_update (entity : T) : M T := fun s =>
  match pk entity with
  | None =>
      if constraints s None entity then
        let e := with_pk (next_pk (rows s)) entity in
        (Return e, set_rows (rows s ++ [e]) s)
      else (Raise IntegrityError, s)
  | Some i =>
      match find_by_id i s with
      | Some old =>
          if constraints s (Some old) entity then
            (Return entity,
             set_rows (map (fun r => if has_pk i r then entity else r) (rows s)) s)
          else (Raise IntegrityError, s)
      | None =>
          if constraints s None entity then
            (Return entity, set_rows (rows s ++ [entity]) s)
          else (Raise IntegrityError, s)
      end
  end.

(** [entity = find_by_id(id); if entity: session.delete(entity); commit()] *)
Definition delete_by_id (entity_id : Z) : M unit := fun s =>
  match find_by_id entity_id s with
  | Some _ =>
      match unlink entity_id s with
      | Some s1 =>
          (Return tt,
           set_rows (filter (fun r => negb (has_pk entity_id r)) (rows s1)) s1)
      | None => (Raise IntegrityError, s)
      end
  | None => (Return tt, s)
  end.

Definition delete_all : M unit := fun s => (Return tt, set_rows [] s).
End Generic.
End CrudRepositoryORM.

(** *** Ordering of a query

    [query.order_by(asc(col))] and [query.order_by(desc(col))].  SQL fixes
    the result only up to the order of rows with equal keys; the model is
    an engine that sorts stably, so rows with equal keys come out in table
    order whichever direction is asked for.  NULL sorts below every
    date. *)

Definition key_leb (a b : option date) : bool :=
  match a, b with
  | None, _ => true
  | Some _, None => false
  | Some x, Some y => x <=? y
  end.

Definition precedes (descending : bool) (a b : option date) : bool :=
  if descending then key_leb b a else key_leb a b.

Section OrderBy.
Context {T : Type} (col : T -> option date) (descending : bool).

Fixpoint insert_row (x : T) (l : list T) : list T :=
  match l with
  | [] => [x]
  | y :: r =>
      if precedes descending (col x) (col y) then x :: y :: r
      else y :: insert_row x r
  end.

Fixpoint order_by (l : list T) : list T :=
  match l with
  | [] => []
  | x :: r => insert_row x (order_by r)
  end.
End OrderBy.

(** The fields a caller may sort or filter by. *)
Definition date_fields : list string := ["start_date"; "end_date"]%string.

Definition is_date_field (f : string) : bool := existsb (String.eqb f) date_fields.

(** [str(n)] for an integer. *)
Definition str_of_int (n : Z) : string := NilZero.string_of_int (Z.to_int n).

Module UserRepository.
Definition find_by_id := @CrudRepositoryORM.find_by_id UserEntity.t _.
Definition find_all := @CrudRepositoryORM.find_all UserEntity.t _.
Definition save_or_update := @CrudRepositoryORM.save_or_update UserEntity.t _.
Definition delete_by_id := @CrudRepositoryORM.delete_by_id UserEntity.t _.

Definition find_by_name (name : string) (s : Store) : option UserEntity.t :=
  find (fun u => match UserEntity.name u with
                 | Some n => String.eqb n name
                 | None => false
                 end) (users s).

Definition find_by_email (email : string) (s : Store) : option UserEntity.t :=
  find (fun u => String.eqb (UserEntity.email u) email) (users s).

(** [user.projects]: the backref of [ProjectEntity.users], the projects
    whose [user_id] is the user's key. *)
Definition user_projects (u : UserEntity.t) (s : Store) : list ProjectEntity.t :=
  filter (fun p => match UserEntity.id u with
                   | Some i => ProjectEntity.user_id p =? i
                   | None => false
                   end) (projects s).

Definition get_user_projects (user_id : Z) : M (list ProjectEntity.t) :=
  user <- query (find_by_id user_id) ;;
  match user with
  | None => raise (ValueError ("User with ID " +++ str_of_int user_id +++ " does not exist."))
  | Some u => query (user_projects u)
  end.

(** [project.users]: entity.py declares it as
    [Mapped[UserEntity] = relationship("UserEntity", backref="projects")]
    over the foreign key [user_id], the many-to-one side: the attribute
    holds the one owning user (or [None]), not a collection. *)
Definition project_users (p : ProjectEntity.t) (s : Store) : option UserEntity.t :=
  find_by_id (ProjectEntity.user_id p) s.

(** [user in project.users] on that attribute: neither a mapped entity
    nor [None] supports the membership test. *)
Definition contains (owner : option UserEntity.t) (user : UserEntity.t) : M bool :=
  match owner with
  | Some _ => raise (TypeError "argument of type 'UserEntity' is not iterable")
  | None => raise (TypeError "argument of type 'NoneType' is not iterable")
  end.

(** [project.users.append(user)] on that attribute. *)
Definition append (owner : option UserEntity.t) (user : UserEntity.t) : M unit :=
  match owner with
  | Some _ => raise (AttributeError "'UserEntity' object has no attribute 'append'")
  | None => raise (AttributeError "'NoneType' object has no attribute 'append'")
  end.

Definition assign_user_to_project (user_id project_id : Z) : M unit :=
  user <- query (find_by_id user_id) ;;
  project <- query (@CrudRepositoryORM.find_by_id ProjectEntity.t _ project_id) ;;
  match user with
  | None => raise (ValueError ("User with ID " +++ str_of_int user_id +++ " does not exist."))
  | Some u =>
      match project with
      | None =>
          raise (ValueError ("Project with ID " +++ str_of_int project_id
                             +++ " does not exist."))
      | Some p =>
          owner <- query (project_users p) ;;
          present <- contains owner u ;;
          if negb present then append owner u
          else raise (ValueError ("User with ID " +++ str_of_int user_id
                                  +++ " is already assigned to project with ID "
                                  +++ str_of_int project_id +++ "."))
      end
  end.
End UserRepository.

Module ProjectRepository.
Definition find_by_id := @CrudRepositoryORM.find_by_id ProjectEntity.t _.
Definition find_all := @CrudRepositoryORM.find_all ProjectEntity.t _.
Definition save_or_update := @CrudRepositoryORM.save_or_update ProjectEntity.t _.
Definition delete_by_id := @CrudRepositoryORM.delete_by_id ProjectEntity.t _.

Definition find_by_name (name : string) (s : Store) : option ProjectEntity.t :=
  find (fun p => String.eqb (ProjectEntity.name p) name) (projects s).

(** [getattr(ProjectEntity, field)] for the two date columns. *)
Definition column (field : string) : ProjectEntity.t -> option date :=
  if String.eqb field "start_date"
  then fun p => Some (ProjectEntity.start_date p)
  else ProjectEntity.end_date.

Definition find_all_sorted_by_date (sort_by : string) (descending : bool)
  : M (list ProjectEntity.t) :=
  if negb (is_date_field sort_by)
  then raise (ValueError "Invalid sort field. Use 'start_date' or 'end_date'.")
  else query (fun s => order_by (column sort_by) descending (projects s)).

Definition find_all_filtered_by_date (input_date : date) (filter_by : string)
  : M (list ProjectEntity.t) :=
  if negb (is_date_field filter_by)
  then raise (ValueError "Invalid filter field. Use 'start_date' or 'end_date'.")
  else query (fun s =>
         filter (fun p => match column filter_by p with
                          | Some d => d =? input_date
                          | None => false
                          end) (projects s)).
End ProjectRepository.

Module TaskRepository.
Definition find_by_id := @CrudRepositoryORM.find_by_id TaskEntity.t _.
Definition find_all := @CrudRepositoryORM.find_all TaskEntity.t _.
Definition save_or_update := @CrudRepositoryORM.save_or_update TaskEntity.t _.
Definition delete_by_id := @CrudRepositoryORM.delete_by_id TaskEntity.t _.

Definition find_id_by_name (title : string) (s : Store) : option TaskEntity.t :=
  find (fun t => String.eqb (TaskEntity.title t) title) (tasks s).


(** [getattr(TaskEntity, field)] for the two date columns. *)
Definition column (field : string) : TaskEntity.t -> option date :=
  if String.eqb field "start_date" then TaskEntity.start_date else TaskEntity.end_date.

Definition find_all_sorted_by_date (sort_by : string) (descending : bool)
  : M (list TaskEntity.t) :=
  if negb (is_date_field sort_by)
  then raise (ValueError "Invalid sort field. Use 'start_date' or 'end_date'.")
  else query (fun s => order_by (column sort_by) descending (tasks s)).



(** [task = query.filter_by(id=task_id).first(); if task: task.status =
    new_status; session.commit(); return task; return None].  The commit
    flushes the modified row as [save_or_update] does for a persistent
    entity. *)
Definition change_status (task_id : Z) (new_status : TaskStatusEnum.t)
  : M (option TaskEntity.t) :=
  task <- query (find_by_id task_id) ;;
  match task with
  | Some task =>
      task <- save_or_update (TaskEntity.set_status new_status task) ;;
      ret (Some task)
  | None => ret None
  end.
End TaskRepository.

Module TaskHistoryRepository.
Definition find_all := @CrudRepositoryORM.find_all TaskHistoryEntity.t _.
Definition save_or_update := @CrudRepositoryORM.save_or_update TaskHistoryEntity.t _.

Definition find_by_task_id (task_id : Z) (s : Store) : list TaskHistoryEntity.t :=
  filter (fun h => match TaskHistoryEntity.task_id h with
                   | Some i => i =? task_id
                   | None => false
                   end) (task_history s).
End TaskHistoryRepository.

Module CommentRepository.
Definition find_by_id := @CrudRepositoryORM.find_by_id CommentEntity.t _.
Definition find_all := @CrudRepositoryORM.find_all CommentEntity.t _.
Definition save_or_update := @CrudRepositoryORM.save_or_update CommentEntity.t _.
Definition delete_by_id := @CrudRepositoryORM.delete_by_id CommentEntity.t _.

Definition find_by_task_id (task_id : Z) (s : Store) : list CommentEntity.t :=
  filter (fun c => CommentEntity.task_id c =? task_id) (comments s).
End CommentRepository.

(** ** app/service/dto.py *)

Module CreateUserDto.
Record t := mk { name : option string; surname : string; email : string }.
End CreateUserDto.

Module CreateProjectDto.
Record t := mk {
  name : string;
  description : string;
  start_date : date;
  end_date : option date;
  status : ProjectStatusEnum.t;
  user_id : Z
}.
End CreateProjectDto.

Module CreateTaskDto.
Record t := mk {
  title : string;
  description : string;
  start_date : date;
  end_date : option date;
  status : TaskStatusEnum.t;
  project_id : Z
}.
End CreateTaskDto.

Module CreateCommentDto.
Record t := mk { content : string; creation_date : datetime; task_id : Z }.
End CreateCommentDto.

(** ** app/service/task_service.py

    [now] is the reading of [datetime.now(CURRENT_TIMEZONE)] during the
    call. *)

Module TaskServiceImpl.
Definition created_message (title : string) : string :=
  "New task '" +++ title +++ "' has been created.".

Definition deleted_message (title : string) : string :=
  "Task '" +++ title +++ "' has been deleted.".

Definition status_changed_message (title : string) (old_status new_status : TaskStatusEnum.t)
  : string :=
  "Task '" +++ title +++ "' status changed from '" +++ TaskStatusEnum.name old_status
  +++ "' to '" +++ TaskStatusEnum.name new_status +++ "'.".

Definition create_task (now : datetime) (create_task_dto : CreateTaskDto.t)
  : M TaskEntity.t :=
  project <- query (ProjectRepository.find_by_id (CreateTaskDto.project_id create_task_dto)) ;;
  match project with
  | None =>
      raise (ValueError ("Project with ID "
                         +++ str_of_int (CreateTaskDto.project_id create_task_dto)
                         +++ " does not exist."))
  | Some _ =>
      task <- TaskRepository.save_or_update
                (TaskEntity.mk None
                   (CreateTaskDto.title create_task_dto)
                   (Some (CreateTaskDto.description create_task_dto))
                   (Some (CreateTaskDto.start_date create_task_dto))
                   (CreateTaskDto.end_date create_task_dto)
                   (CreateTaskDto.status create_task_dto)
                   (CreateTaskDto.project_id create_task_dto)) ;;
      TaskHistoryRepository.save_or_update
        (TaskHistoryEntity.mk None
           (created_message (TaskEntity.title task)) now (TaskEntity.id task)) ;;;
      ret task
  end.

Definition delete_by_id (now : datetime) (task_id : Z) : M unit :=
  task <- query (TaskRepository.find_by_id task_id) ;;
  match task with
  | None =>
      raise (ValueError ("Task with ID " +++ str_of_int task_id +++ " does not exist."))
  | Some task =>
      TaskHistoryRepository.save_or_update
        (TaskHistoryEntity.mk None
           (deleted_message (TaskEntity.title task)) now (TaskEntity.id task)) ;;;
      TaskRepository.delete_by_id task_id
  end.

Definition change_status (now : datetime) (task_id : Z) (new_status : TaskStatusEnum.t)
  : M TaskEntity.t :=
  task <- query (TaskRepository.find_by_id task_id) ;;
  match task with
  | None =>
      raise (ValueError ("Task with ID " +++ str_of_int task_id +++ " does not exist."))
  | Some task =>
      let old_status := TaskEntity.status task in
      task <- TaskRepository.save_or_update (TaskEntity.set_status new_status task) ;;
      TaskHistoryRepository.save_or_update
        (TaskHistoryEntity.mk None
           (status_changed_message (TaskEntity.title task) old_status new_status)
           now (TaskEntity.id task)) ;;;
      ret task
  end.


Definition find_by_id : Z -> Store -> option TaskEntity.t := TaskRepository.find_by_id.


Definition find_all_sorted_by_date (sort_by : string) (descending : bool)
  : M (list TaskEntity.t) :=
  if negb (is_date_field sort_by)
  then raise (ValueError "Invalid sorting field. Use 'start_date' or 'end_date'.")
  else TaskRepository.find_all_sorted_by_date sort_by descending.
End TaskServiceImpl.

(** ** app/service/user_service.py *)

Module UserServiceImpl.
Definition create_user (create_user_dto : CreateUserDto.t) : M UserEntity.t :=
  existing <- query (UserRepository.find_by_email (CreateUserDto.email create_user_dto)) ;;
  match existing with
  | Some _ => raise (ValueError "User with this email already exists.")
  | None =>
      UserRepository.save_or_update
        (UserEntity.mk None
           (CreateUserDto.name create_user_dto)
           (CreateUserDto.surname create_user_dto)
           (CreateUserDto.email create_user_dto))
  end.

Definition delete_by_id (user_id : Z) : M unit := UserRepository.delete_by_id user_id.

Definition find_all_users : Store -> list UserEntity.t := UserRepository.find_all.

Definition find_by_id : Z -> Store -> option UserEntity.t := UserRepository.find_by_id.

Definition get_user_projects (user_id : Z) : M (list ProjectEntity.t) :=
  UserRepository.get_user_projects user_id.

Definition find_user_by_name : string -> Store -> option UserEntity.t :=
  UserRepository.find_by_name.

Definition assign_user_to_project (user_id project_id : Z) : M unit :=
  UserRepository.assign_user_to_project user_id project_id.
End UserServiceImpl.

(** ** app/service/project_service.py *)

Module ProjectServiceImpl.
Definition create_project (create_project_dto : CreateProjectDto.t) : M ProjectEntity.t :=
  ProjectRepository.save_or_update
    (ProjectEntity.mk None
       (CreateProjectDto.name create_project_dto)
       (CreateProjectDto.description create_project_dto)
       (CreateProjectDto.start_date create_project_dto)
       (CreateProjectDto.end_date create_project_dto)
       (CreateProjectDto.status create_project_dto)
       (CreateProjectDto.user_id create_project_dto)).

Definition delete_by_id (project_id : Z) : M unit := ProjectRepository.delete_by_id project_id.

Definition find_all_projects : Store -> list ProjectEntity.t := ProjectRepository.find_all.

Definition find_by_id : Z -> Store -> option ProjectEntity.t := ProjectRepository.find_by_id.

Definition find_by_name : string -> Store -> option ProjectEntity.t :=
  ProjectRepository.find_by_name.

Definition find_all_sorted_by_date (sort_by : string) (descending : bool)
  : M (list ProjectEntity.t) :=
  if negb (is_date_field sort_by)
  then raise (ValueError "Invalid sorting field. Use 'start_date' or 'end_date'.")
  else ProjectRepository.find_all_sorted_by_date sort_by descending.

Definition find_all_filtered_by_date (input_date : date) (filter_by : string)
  : M (list ProjectEntity.t) :=
  if negb (is_date_field filter_by)
  then raise (ValueError "Invalid filtering field. Use 'start_date' or 'end_date'.")
  else ProjectRepository.find_all_filtered_by_date input_date filter_by.
End ProjectServiceImpl.

(** ** app/service/comment_service.py *)

Module CommentServiceImpl.
Definition create_task (create_comment_dto : CreateCommentDto.t) : M CommentEntity.t :=
  task <- query (TaskRepository.find_by_id (CreateCommentDto.task_id create_comment_dto)) ;;
  match task with
  | Some _ =>
      CommentRepository.save_or_update
        (CommentEntity.mk None
           (CreateCommentDto.content create_comment_dto)
           (CreateCommentDto.creation_date create_comment_dto)
           (CreateCommentDto.task_id create_comment_dto))
  | None =>
      raise (ValueError ("Task with ID "
                         +++ str_of_int (CreateCommentDto.task_id create_comment_dto)
                         +++ " does not exist."))
  end.

Definition delete_by_id (comment_id : Z) : M unit := CommentRepository.delete_by_id comment_id.

Definition find_all_comments : Store -> list CommentEntity.t := CommentRepository.find_all.

Definition find_by_id : Z -> Store -> option CommentEntity.t := CommentRepository.find_by_id.

(** The class defines no [update_by_id]; the attribute lookup made by
    the comment resource raises. *)
Definition update_by_id (comment_id : Z) (dto : CreateCommentDto.t) : M unit :=
  raise (AttributeError "'CommentServiceImpl' object has no attribute 'update_by_id'").
End CommentServiceImpl.

(** ** app/routes

    A handler maps the store to a response and the store it leaves.  Only
    the status code and the message of a response are kept; the JSON
    rendering of an entity is [Data]. *)

Inductive Body :=
| Message (message : string)
| MessageError (message error : string)
| Data.

Record Response := mkResponse { status_code : Z; body : Body }.

Definition Handler : Type := Store -> Response * Store.

(** [str(e)] *)
Definition str_of_error (e : PyError) : string :=
  match e with
  | ValueError m => m
  | KeyError k => "'" +++ k +++ "'"
  | TypeError m => m
  | AttributeError m => m
  | IntegrityError => "IntegrityError"
  end.

(** An exception that leaves a handler is answered by the framework. *)
Definition internal_server_error : Response :=
  mkResponse 500 (Message "Internal Server Error").

(** [@validate()]: a body that does not satisfy the [Field] constraints of
    its schema is answered with 400 and the handler is not entered. *)
Definition validate {B : Type} (ok : B -> bool) (handler : B -> Handler) (b : B) : Handler :=
  fun s => if ok b then handler b s else (mkResponse 400 (Message "validation error"), s).

Definition min_length (n : nat) (s : string) : bool := (n <=? String.length s)%nat.

Module CreateTaskSchema.
Record t := mk {
  title : string;
  description : string;
  start_date : date;
  end_date : option date;
  status : string;
  project_id : Z
}.
Definition ok (b : t) : bool :=
  min_length 1 (title b) && min_length 1 (description b) && (1 <=? project_id b).
End CreateTaskSchema.

Module UpdateTaskStatusSchema.
Record t := mk { status : string }.
Definition ok (b : t) : bool := true.
End UpdateTaskStatusSchema.

Module CreateProjectSchema.
Record t := mk {
  name : string;
  description : string;
  start_date : date;
  end_date : option date;
  status : string;
  user_id : Z
}.
Definition ok (b : t) : bool :=
  min_length 1 (name b) && min_length 1 (description b) && (1 <=? user_id b).
End CreateProjectSchema.

Module CreateCommentSchema.
Record t := mk { content : string; task_id : Z }.
Definition ok (b : t) : bool := min_length 1 (content b) && (1 <=? task_id b).
End CreateCommentSchema.

Module CreateUserSchema.
Record t := mk { name : option string; surname : string; email : string }.
(** [EmailStr] is checked by the validation library; the check is a
    parameter here. *)
Definition ok (email_ok : string -> bool) (b : t) : bool :=
  match name b with Some n => min_length 1 n | None => true end
  && min_length 1 (surname b) && email_ok (email b).
End CreateUserSchema.

(** *** task_resource.py *)

Module TaskResourceID.
Definition get (id_ : Z) : Handler := fun s =>
  match TaskServiceImpl.find_by_id id_ s with
  | Some _ => (mkResponse 200 Data, s)
  | None => (mkResponse 404 (Message "Task not found"), s)
  end.

Definition delete (now : datetime) (id_ : Z) : Handler := fun s =>
  match TaskServiceImpl.find_by_id id_ s with
  | Some _ =>
      match TaskServiceImpl.delete_by_id now id_ s with
      | (Return _, s1) => (mkResponse 200 (Message "Task deleted"), s1)
      | (Raise _, s1) => (internal_server_error, s1)
      end
  | None => (mkResponse 500 (Message "Task not deleted"), s)
  end.

Definition put (now : datetime) (id_ : Z) : UpdateTaskStatusSchema.t -> Handler :=
  validate UpdateTaskStatusSchema.ok (fun b s =>
    match TaskServiceImpl.find_by_id id_ s with
    | None => (mkResponse 404 (Message "Task not found"), s)
    | Some _ =>
        match TaskStatusEnum.getitem (upper (UpdateTaskStatusSchema.status b)) with
        | None =>
            (mkResponse 400
               (Message ("Invalid status value: " +++ UpdateTaskStatusSchema.status b)), s)
        | Some new_status =>
            match TaskServiceImpl.change_status now id_ new_status s with
            | (Return _, s1) =>
                (mkResponse 200 (Message "Task status updated successfully."), s1)
            | (Raise e, s1) =>
                (mkResponse 500
                   (MessageError "Error updating task status" (str_of_error e)), s1)
            end
        end
    end).
End TaskResourceID.

Module TaskAddToProjectResource.
Definition post (now : datetime) : CreateTaskSchema.t -> Handler :=
  validate CreateTaskSchema.ok (fun b s =>
    match TaskStatusEnum.getitem (upper (CreateTaskSchema.status b)) with
    | None =>
        (mkResponse 400 (Message ("Invalid status value: " +++ CreateTaskSchema.status b)), s)
    | Some status =>
        match TaskServiceImpl.create_task now
                (CreateTaskDto.mk (CreateTaskSchema.title b)
                   (CreateTaskSchema.description b)
                   (CreateTaskSchema.start_date b)
                   (CreateTaskSchema.end_date b)
                   status
                   (CreateTaskSchema.project_id b)) s with
        | (Return _, s1) => (mkResponse 201 (Message "Task added successfully!"), s1)
        | (Raise e, s1) =>
            (mkResponse 400
               (MessageError "Error processing the request" (str_of_error e)), s1)
        end
    end).
End TaskAddToProjectResource.

Module TaskSortByStartDate.
Definition get : Handler := fun s =>
  match TaskServiceImpl.find_all_sorted_by_date "start_date" false s with
  | (Return _, s1) => (mkResponse 200 Data, s1)
  | (Raise _, s1) => (internal_server_error, s1)
  end.
End TaskSortByStartDate.

Module TaskFilterByStatus.
Definition get (status : string) : Handler := fun s =>
  match TaskStatusEnum.getitem (upper status) with
  | None => (mkResponse 400 (Message ("Invalid status value: " +++ status)), s)
  | Some _ => (mkResponse 200 Data, s)
  end.

End TaskFilterByStatus.

(** *** project_resource.py *)

Module ProjectResourceID.
Definition get (id_ : Z) : Handler := fun s =>
  match ProjectServiceImpl.find_by_id id_ s with
  | Some _ => (mkResponse 200 Data, s)
  | None => (mkResponse 404 (Message "Project not found"), s)
  end.

Definition delete (id_ : Z) : Handler := fun s =>
  match ProjectServiceImpl.find_by_id id_ s with
  | Some _ =>
      match ProjectServiceImpl.delete_by_id id_ s with
      | (Return _, s1) => (mkResponse 200 (Message "Project deleted"), s1)
      | (Raise _, s1) => (internal_server_error, s1)
      end
  | None => (mkResponse 500 (Message "Project not deleted"), s)
  end.
End ProjectResourceID.

Module ProjectResourceAdd.
(** The subscript [ProjectStatusEnum[body.status]] raises [KeyError];
    the inner handler catches [ValueError] only, so the error reaches
    the outer [except Exception]. *)
Definition post : CreateProjectSchema.t -> Handler :=
  validate CreateProjectSchema.ok (fun b s =>
    match ProjectStatusEnum.getitem (CreateProjectSchema.status b) with
    | None =>
        (mkResponse 400
           (MessageError "Error processing the request"
              (str_of_error (KeyError (CreateProjectSchema.status b)))), s)
    | Some status =>
        match ProjectServiceImpl.create_project
                (CreateProjectDto.mk (CreateProjectSchema.name b)
                   (CreateProjectSchema.description b)
                   (CreateProjectSchema.start_date b)
                   (CreateProjectSchema.end_date b)
                   status
                   (CreateProjectSchema.user_id b)) s with
        | (Return _, s1) => (mkResponse 201 (Message "Project added successfully!"), s1)
        | (Raise e, s1) =>
            (mkResponse 400
               (MessageError "Error processing the request" (str_of_error e)), s1)
        end
    end).
End ProjectResourceAdd.

Module ProjectResource.
Definition get (name : string) : Handler := fun s =>
  match ProjectServiceImpl.find_by_name name s with
  | Some _ => (mkResponse 200 Data, s)
  | None => (mkResponse 404 (Message "Project not found"), s)
  end.
End ProjectResource.

Module ProjectResourceSortByStartDateAsc.
Definition get : Handler := fun s =>
  match ProjectServiceImpl.find_all_sorted_by_date "start_date" false s with
  | (Return _, s1) => (mkResponse 200 Data, s1)
  | (Raise _, s1) => (internal_server_error, s1)
  end.
End ProjectResourceSortByStartDateAsc.

Module ProjectResourceFilterByStartDate.
(** [strptime] stands for [datetime.strptime(input_date, '%Y-%m-%d').date()],
    [None] for its [ValueError]. *)
Definition get (strptime : string -> option date) (input_date : string) : Handler := fun s =>
  match strptime input_date with
  | None => (mkResponse 400 (Message "Invalid date format. Use YYYY-MM-DD"), s)
  | Some parsed_date =>
      match ProjectServiceImpl.find_all_filtered_by_date parsed_date "start_date" s with
      | (Return _, s1) => (mkResponse 200 Data, s1)
      | (Raise _, s1) => (internal_server_error, s1)
      end
  end.
End ProjectResourceFilterByStartDate.

Module ProjectListResource.
Definition get : Handler := fun s => (mkResponse 200 Data, s).
End ProjectListResource.

(** *** user_resource.py *)

Module UserAddResource.
Definition post (email_ok : string -> bool) : CreateUserSchema.t -> Handler :=
  validate (CreateUserSchema.ok email_ok) (fun b s =>
    match UserServiceImpl.create_user
            (CreateUserDto.mk (CreateUserSchema.name b)
               (CreateUserSchema.surname b)
               (CreateUserSchema.email b)) s with
    | (Return _, s1) => (mkResponse 200 Data, s1)
    | (Raise e, s1) =>
        if is_ValueError e
        then (mkResponse 409 (Message (str_of_error e)), s1)
        else (mkResponse 500 (Message "Cannot create user"), s1)
    end).
End UserAddResource.

Module UserResourceID.
Definition delete (id_ : Z) : Handler := fun s =>
  match UserServiceImpl.find_by_id id_ s with
  | Some _ =>
      match UserServiceImpl.delete_by_id id_ s with
      | (Return _, s1) => (mkResponse 200 (Message "User deleted"), s1)
      | (Raise _, s1) => (internal_server_error, s1)
      end
  | None => (mkResponse 500 (Message "User not deleted"), s)
  end.

Definition get (id_ : Z) : Handler := fun s =>
  match UserServiceImpl.find_by_id id_ s with
  | Some _ => (mkResponse 200 Data, s)
  | None => (mkResponse 404 (Message "User not found"), s)
  end.
End UserResourceID.

Module UserResource.
Definition get (name : string) : Handler := fun s =>
  match UserServiceImpl.find_user_by_name name s with
  | Some _ => (mkResponse 200 Data, s)
  | None => (mkResponse 404 (Message "User not found"), s)
  end.
End UserResource.

Module UserProjectResource.
Definition get (id_ : Z) : Handler := fun s =>
  match UserServiceImpl.get_user_projects id_ s with
  | (Return [], s1) => (mkResponse 404 (Message "No projects found for the user"), s1)
  | (Return (_ :: _), s1) => (mkResponse 200 Data, s1)
  | (Raise e, s1) =>
      if is_ValueError e
      then (mkResponse 404 (Message (str_of_error e)), s1)
      else (mkResponse 500 (Message ("An error occurred: " +++ str_of_error e)), s1)
  end.
End UserProjectResource.

Module UserListResource.
Definition get : Handler := fun s => (mkResponse 200 Data, s).
End UserListResource.

(** *** comment_resource.py *)

Module CommentResourceID.
Definition get (id_ : Z) : Handler := fun s =>
  match CommentServiceImpl.find_by_id id_ s with
  | Some _ => (mkResponse 200 Data, s)
  | None => (mkResponse 404 (Message "Comment not found"), s)
  end.

Definition delete (id_ : Z) : Handler := fun s =>
  match CommentServiceImpl.find_by_id id_ s with
  | Some _ =>
      match CommentServiceImpl.delete_by_id id_ s with
      | (Return _, s1) => (mkResponse 200 (Message "Comment deleted"), s1)
      | (Raise _, s1) => (internal_server_error, s1)
      end
  | None => (mkResponse 500 (Message "Comment not deleted"), s)
  end.

Definition put (now : datetime) (id_ : Z) : CreateCommentSchema.t -> Handler :=
  validate CreateCommentSchema.ok (fun b s =>
    match CommentServiceImpl.find_by_id id_ s with
    | None => (mkResponse 404 (Message "Comment not found"), s)
    | Some _ =>
        match CommentServiceImpl.update_by_id id_
                (CreateCommentDto.mk (CreateCommentSchema.content b) now
                   (CreateCommentSchema.task_id b)) s with
        | (Return _, s1) => (mkResponse 200 (Message "Comment updated successfully!"), s1)
        | (Raise e, s1) =>
            (mkResponse 500
               (MessageError "Error updating the comment" (str_of_error e)), s1)
        end
    end).
End CommentResourceID.

Module CommentAddToTaskResource.
Definition post (now : datetime) : CreateCommentSchema.t -> Handler :=
  validate CreateCommentSchema.ok (fun b s =>
    match CommentServiceImpl.create_task
            (CreateCommentDto.mk (CreateCommentSchema.content b) now
               (CreateCommentSchema.task_id b)) s with
    | (Return _, s1) => (mkResponse 201 (Message "Comment added successfully!"), s1)
    | (Raise e, s1) =>
        (mkResponse 400
           (MessageError "Error processing the request" (str_of_error e)), s1)
    end).
End CommentAddToTaskResource.

(** ** Vocabulary of the statements *)

(** The row written by an insert into [task_history]. *)
Definition history_row (s : Store) (change_description : string) (now : datetime)
    (task_id : Z) : TaskHistoryEntity.t :=
  TaskHistoryEntity.mk (Some (next_pk (task_history s))) change_description now
    (Some task_id).

(** [h] is a row that [s] does not hold yet, it points to the task
    [task_id] and carries [description]. *)
Definition new_history_row (s : Store) (h : TaskHistoryEntity.t) (task_id : Z)
    (description : string) : Prop :=
  (forall h0, In h0 (task_history s) -> TaskHistoryEntity.id h0 <> TaskHistoryEntity.id h)
  /\ TaskHistoryEntity.task_id h = Some task_id
  /\ TaskHistoryEntity.change_description h = description.


(** [x] may stand before [y] in a result ordered by [col] in direction
    [d]. *)
Definition in_order {T : Type} (col : T -> option date) (d : bool) (x y : T) : Prop :=
  precedes d (col x) (col y) = true.

(** The mapper of a table is well behaved: the rows written are the rows
    read back, a key given to a row is the key it has, and releasing the
    rows that refer to a deleted row leaves the table itself alone. *)
Class LawfulModel (T : Type) `{Model T} := {
  rows_set_rows : forall l s, rows (set_rows l s) = l;
  pk_with_pk : forall i e, pk (with_pk i e) = Some i;
  unlink_rows : forall i s s1, unlink i s = Some s1 -> rows s1 = rows s
}.

(** Referential integrity of [tasks]: the project of every task is
    stored. *)
Definition tasks_reference_projects (s : Store) : Prop :=
  forall t, In t (tasks s) ->
            exists p, ProjectRepository.find_by_id (TaskEntity.project_id t) s = Some p.


(** ** Sample stores *)

(** One user, one project, one task and the history row of its creation. *)
Definition demo_store : Store :=
  mkStore
    [UserEntity.mk (Some 1) (Some "Ann"%string) "Lee" "ann@example.org"]
    [ProjectEntity.mk (Some 1) "Site" "New site" 10 None ProjectStatusEnum.PLANNED 1]
    [TaskEntity.mk (Some 1) "Draft" (Some "First draft"%string) (Some 12) None
       TaskStatusEnum.TO_DO 1]
    []
    [TaskHistoryEntity.mk (Some 1) "New task 'Draft' has been created." 50 (Some 1)]
    true.

Definition demo_dto : CreateTaskDto.t :=
  CreateTaskDto.mk "Review" "Second pass" 20 None TaskStatusEnum.IN_PROGRESS 1.

(** Two projects and two tasks that start on the same day. *)
Definition tied_store : Store :=
  mkStore
    [UserEntity.mk (Some 1) (Some "Ann"%string) "Lee" "ann@example.org"]
    [ProjectEntity.mk (Some 1) "Site" "New site" 10 None ProjectStatusEnum.PLANNED 1;
     ProjectEntity.mk (Some 2) "Shop" "Web shop" 10 None ProjectStatusEnum.PLANNED 1]
    [TaskEntity.mk (Some 1) "Draft" (Some "First draft"%string) (Some 12) None
       TaskStatusEnum.TO_DO 1;
     TaskEntity.mk (Some 2) "Review" (Some "Second pass"%string) (Some 12) None
       TaskStatusEnum.TO_DO 1]
    [] [] true.

(** Three projects and three tasks with start dates all different, stored
    out of date order. *)
Definition dated_store : Store :=
  mkStore
    [UserEntity.mk (Some 1) (Some "Ann"%string) "Lee" "ann@example.org"]
    [ProjectEntity.mk (Some 1) "Site" "New site" 20 None ProjectStatusEnum.PLANNED 1;
     ProjectEntity.mk (Some 2) "Shop" "Web shop" 10 None ProjectStatusEnum.PLANNED 1;
     ProjectEntity.mk (Some 3) "Blog" "Team blog" 30 None ProjectStatusEnum.ON_HOLD 1]
    [TaskEntity.mk (Some 1) "Draft" (Some "First draft"%string) (Some 12) None
       TaskStatusEnum.TO_DO 1;
     TaskEntity.mk (Some 2) "Review" (Some "Second pass"%string) None None
       TaskStatusEnum.TO_DO 1;
     TaskEntity.mk (Some 3) "Ship" (Some "Release"%string) (Some 11) None
       TaskStatusEnum.BLOCKED 2]
    [] [] true.

(** A second user, who does not own the project. *)
Definition team_store : Store :=
  mkStore
    [UserEntity.mk (Some 1) (Some "Ann"%string) "Lee" "ann@example.org";
     UserEntity.mk (Some 2) (Some "Bob"%string) "Ray" "bob@example.org"]
    [ProjectEntity.mk (Some 1) "Site" "New site" 10 None ProjectStatusEnum.PLANNED 1]
    [] [] [] true.

(** * Properties *)

(** ** Lookups and primary keys *)

Section Lookup.
Context {T : Type} `{Model T}.

Lemma has_pk_iff (i : Z) (e : T) : has_pk i e = true <-> pk e = Some i.
Proof.
  unfold has_pk. destruct (pk e) as [j|]; split; intro E; try discriminate.
  - apply Z.eqb_eq in E. now subst.
  - injection E as ->. apply Z.eqb_refl.
Qed.

Lemma find_has_pk (i : Z) (l : list T) (e : T) :
  find (has_pk i) l = Some e -> In e l /\ pk e = Some i.
Proof.
  intro F. apply find_some in F as [I P]. split; [exact I|]. now apply has_pk_iff.
Qed.

Lemma find_has_pk_none (i : Z) (l : list T) :
  find (has_pk i) l = None <-> (forall e, In e l -> pk e <> Some i).
Proof.
  split.
  - intros F e I P. apply (find_none _ _ F) in I. apply has_pk_iff in P. congruence.
  - intro N. induction l as [|x l IH]; [reflexivity|]. simpl.
    destruct (has_pk i x) eqn:E.
    + apply has_pk_iff in E. exfalso. apply (N x); [now left | exact E].
    + apply IH. intros e I. apply N. now right.
Qed.

Lemma references_pk (i : Z) (l : list T) (e : T) :
  find (has_pk i) l = Some e -> references pk i l = true.
Proof.
  intro F. apply find_has_pk in F as [I P]. unfold references.
  apply existsb_exists. exists e. split; [exact I|]. rewrite P. apply Z.eqb_refl.
Qed.

Lemma next_pk_bound (l : list T) (e : T) (i : Z) :
  In e l -> pk e = Some i -> i < next_pk l.
Proof.
  unfold next_pk. induction l as [|x l IH]; cbn [fold_right In]; [tauto|].
  intros [E|I] P.
  - subst x. rewrite P. lia.
  - specialize (IH I P). destruct (pk x); lia.
Qed.

(** A new key is the key of no row already in the table. *)
Lemma next_pk_fresh (l : list T) (e : T) : In e l -> pk e <> Some (next_pk l).
Proof.
  intros I P. pose proof (next_pk_bound l e _ I P). lia.
Qed.

Lemma find_app_new (i : Z) (l : list T) (x : T) :
  find (has_pk i) l = None -> pk x = Some i -> find (has_pk i) (l ++ [x]) = Some x.
Proof.
  intros F P. induction l as [|y l IH]; simpl in *.
  - apply has_pk_iff in P. now rewrite P.
  - destruct (has_pk i y); [discriminate | now apply IH].
Qed.

(** With unique primary keys the row found under a key splits the table
    around itself, and it is the only row with that key. *)
Lemma find_split_unique (i : Z) (l : list T) (e : T) :
  NoDup (map pk l) -> find (has_pk i) l = Some e ->
  exists before after,
    l = before ++ e :: after
    /\ (forall r, In r before -> has_pk i r = false)
    /\ (forall r, In r after -> has_pk i r = false).
Proof.
  induction l as [|y l IH]; simpl; [discriminate|].
  intros N F. inversion N as [|? ? NI N']; subst.
  destruct (has_pk i y) eqn:E.
  - injection F as ->. exists [], l. repeat split; [intros ? []|].
    intros r I. destruct (has_pk i r) eqn:E'; [|reflexivity].
    exfalso. apply NI. apply has_pk_iff in E, E'. rewrite E, <- E'. now apply in_map.
  - destruct (IH N' F) as (b & a & -> & Hb & Ha).
    exists (y :: b), a. repeat split; [|exact Ha].
    intros r [<-|I]; [exact E | now apply Hb].
Qed.

Lemma find_map_replace (i : Z) (l : list T) (e e' : T) :
  find (has_pk i) l = Some e -> has_pk i e' = true ->
  find (has_pk i) (map (fun r => if has_pk i r then e' else r) l) = Some e'.
Proof.
  intros F P'. induction l as [|y l IH]; [discriminate|].
  cbn [map find] in *. destruct (has_pk i y) eqn:E.
  - now rewrite P'.
  - rewrite E. now apply IH.
Qed.

Lemma map_replace_split (i : Z) (e e' : T) (before after : list T) :
  has_pk i e = true ->
  (forall r, In r before -> has_pk i r = false) ->
  (forall r, In r after -> has_pk i r = false) ->
  map (fun r => if has_pk i r then e' else r) (before ++ e :: after)
  = before ++ e' :: after.
Proof.
  intros E Hb Ha. rewrite map_app. simpl. rewrite E. f_equal; [|f_equal].
  - rewrite <- (map_id before) at 2. apply map_ext_in. intros r I. now rewrite (Hb r I).
  - rewrite <- (map_id after) at 2. apply map_ext_in. intros r I. now rewrite (Ha r I).
Qed.
End Lookup.

(** ** The writes of the task service *)

Lemma fk_ok_parent {T P} (s : Store) (fk : T -> option Z) (old : option T)
    (e : T) (i : Z) (parent_pk : P -> option Z) (parents : list P) :
  fk e = Some i -> references parent_pk i parents = true ->
  fk_ok s fk old e parent_pk parents = true.
Proof.
  intros E R. unfold fk_ok. rewrite E, R. now rewrite !orb_true_r.
Qed.

Lemma fk_ok_unchanged {T P} (s : Store) (fk : T -> option Z) (o e : T)
    (parent_pk : P -> option Z) (parents : list P) :
  fk e = fk o -> fk_ok s fk (Some o) e parent_pk parents = true.
Proof.
  intro E. unfold fk_ok. rewrite E. destruct (fk o) as [j|].
  - rewrite Z.eqb_refl. simpl. apply orb_true_r.
  - apply orb_true_r.
Qed.

Lemma history_insert (s : Store) (d : string) (now : datetime) (i : Z) (task : TaskEntity.t) :
  TaskRepository.find_by_id i s = Some task ->
  TaskHistoryRepository.save_or_update (TaskHistoryEntity.mk None d now (Some i)) s
  = (Return (history_row s d now i),
     mkStore (users s) (projects s) (tasks s) (comments s)
       (task_history s ++ [history_row s d now i]) (enforce_fk s)).
Proof.
  intro F.
  unfold TaskHistoryRepository.save_or_update, CrudRepositoryORM.save_or_update.
  cbn [pk TaskHistoryModel TaskHistoryEntity.id constraints].
  rewrite (fk_ok_parent s TaskHistoryEntity.task_id None _ i TaskEntity.id (tasks s));
    [reflexivity | reflexivity | exact (references_pk i (tasks s) task F)].
Qed.

Lemma create_task_run (now : datetime) (dto : CreateTaskDto.t) (s : Store)
    (project : ProjectEntity.t) :
  ProjectRepository.find_by_id (CreateTaskDto.project_id dto) s = Some project ->
  let task :=
    TaskEntity.mk (Some (next_pk (tasks s))) (CreateTaskDto.title dto)
      (Some (CreateTaskDto.description dto)) (Some (CreateTaskDto.start_date dto))
      (CreateTaskDto.end_date dto) (CreateTaskDto.status dto)
      (CreateTaskDto.project_id dto) in
  TaskServiceImpl.create_task now dto s
  = (Return task,
     mkStore (users s) (projects s) (tasks s ++ [task]) (comments s)
       (task_history s
        ++ [history_row s (TaskServiceImpl.created_message (CreateTaskDto.title dto))
              now (next_pk (tasks s))])
       (enforce_fk s)).
Proof.
  intros F task.
  unfold TaskServiceImpl.create_task, bind, query. rewrite F.
  unfold TaskRepository.save_or_update, CrudRepositoryORM.save_or_update.
  cbn [pk TaskModel TaskEntity.id constraints with_pk rows set_rows].
  rewrite (fk_ok_parent s _ None _ (CreateTaskDto.project_id dto) ProjectEntity.id (projects s));
    [| reflexivity | exact (references_pk _ (projects s) project F)].
  fold task.
  assert (F1 : TaskRepository.find_by_id (next_pk (tasks s))
                 (mkStore (users s) (projects s) (tasks s ++ [task]) (comments s)
                    (task_history s) (enforce_fk s)) = Some task).
  { apply (find_app_new (next_pk (tasks s)) (tasks s) task); [|reflexivity].
    apply find_has_pk_none. intros e. apply next_pk_fresh. }
  change (TaskEntity.with_id (next_pk (tasks s)) _) with task.
  change (TaskEntity.id task) with (Some (next_pk (tasks s))).
  rewrite (history_insert _ _ now _ task F1). reflexivity.
Qed.

Lemma task_delete_run (task_id : Z) (s : Store) (task : TaskEntity.t) :
  TaskRepository.find_by_id task_id s = Some task ->
  TaskRepository.delete_by_id task_id s
  = if enforce_fk s
       && references (fun c => Some (CommentEntity.task_id c)) task_id (comments s)
    then (Raise IntegrityError, s)
    else (Return tt,
          mkStore (users s) (projects s)
            (filter (fun r => negb (has_pk task_id r)) (tasks s)) (comments s)
            (if enforce_fk s then map (set_null_where task_id) (task_history s)
             else task_history s)
            (enforce_fk s)).
Proof.
  intro F. unfold TaskRepository.delete_by_id, CrudRepositoryORM.delete_by_id.
  unfold TaskRepository.find_by_id in F. rewrite F.
  cbn [unlink TaskModel].
  destruct (enforce_fk s) eqn:E; cbn [andb].
  - destruct (references _ task_id (comments s)); [reflexivity|].
    cbn [rows set_rows TaskModel tasks users projects comments task_history enforce_fk].
    reflexivity.
  - cbn [rows set_rows TaskModel]. rewrite E. reflexivity.
Qed.

Lemma delete_by_id_run (now : datetime) (task_id : Z) (s : Store) (task : TaskEntity.t) :
  TaskRepository.find_by_id task_id s = Some task ->
  TaskServiceImpl.delete_by_id now task_id s
  = TaskRepository.delete_by_id task_id
      (mkStore (users s) (projects s) (tasks s) (comments s)
         (task_history s
          ++ [history_row s (TaskServiceImpl.deleted_message (TaskEntity.title task))
                now task_id])
         (enforce_fk s)).
Proof.
  intro F. unfold TaskServiceImpl.delete_by_id, bind, query. rewrite F.
  destruct (find_has_pk _ _ _ F) as [_ P]. cbn [pk TaskModel] in P. rewrite P.
  rewrite (history_insert _ _ now _ task F). reflexivity.
Qed.

Lemma change_status_run (now : datetime) (task_id : Z) (new_status : TaskStatusEnum.t)
    (s : Store) (task : TaskEntity.t) :
  TaskRepository.find_by_id task_id s = Some task ->
  let task' := TaskEntity.set_status new_status task in
  TaskServiceImpl.change_status now task_id new_status s
  = (Return task',
     mkStore (users s) (projects s)
       (map (fun r => if has_pk task_id r then task' else r) (tasks s)) (comments s)
       (task_history s
        ++ [history_row s
              (TaskServiceImpl.status_changed_message (TaskEntity.title task)
                 (TaskEntity.status task) new_status) now task_id])
       (enforce_fk s)).
Proof.
  intros F task'.
  unfold TaskServiceImpl.change_status, bind, query. rewrite F.
  destruct (find_has_pk _ _ _ F) as [I P]. cbn [pk TaskModel] in P.
  unfold TaskRepository.save_or_update, CrudRepositoryORM.save_or_update.
  fold task'.
  change (pk task') with (TaskEntity.id task). rewrite P.
  unfold TaskRepository.find_by_id in F. rewrite F.
  cbn [constraints TaskModel].
  rewrite fk_ok_unchanged by reflexivity.
  cbn [rows set_rows TaskModel].
  assert (F1 : TaskRepository.find_by_id task_id
                 (mkStore (users s) (projects s)
                    (map (fun r => if has_pk task_id r then task' else r) (tasks s))
                    (comments s) (task_history s) (enforce_fk s)) = Some task').
  { apply (find_map_replace task_id (tasks s) task task' F).
    apply has_pk_iff. exact P. }
  change (TaskEntity.title task') with (TaskEntity.title task).
  change (TaskEntity.id task') with (TaskEntity.id task). rewrite P.
  rewrite (history_insert _ _ now _ task' F1). reflexivity.
Qed.

Lemma history_row_new (s : Store) (d : string) (now : datetime) (i : Z) :
  new_history_row s (history_row s d now i) i d.
Proof.
  split; [|split; reflexivity].
  intros h0 I. exact (next_pk_fresh (task_history s) h0 I).
Qed.

(** ** The audit trail of task mutations *)

(** C1.  Every successful [create_task], [delete_by_id] and
    [change_status] of the task service inserts exactly one row into
    [task_history]: the table grows by one row with a new primary key, the
    row carries the key of the mutated task, and its description is the
    template of the operation.  For a delete the row is written while the
    task is still stored; the removal that follows keeps the row and, in a
    store that acts on foreign keys, applies SET NULL to it. *)
Theorem task_mutation_logs_one_history_row :
  (forall now dto s task s',
      TaskServiceImpl.create_task now dto s = (Return task, s') ->
      exists h task_id,
        task_history s' = task_history s ++ [h]
        /\ TaskEntity.id task = Some task_id
        /\ TaskRepository.find_by_id task_id s = None
        /\ TaskRepository.find_by_id task_id s' = Some task
        /\ new_history_row s h task_id
             ("New task '" +++ CreateTaskDto.title dto +++ "' has been created."))
  /\ (forall now task_id s s',
      TaskServiceImpl.delete_by_id now task_id s = (Return tt, s') ->
      exists task h,
        TaskRepository.find_by_id task_id s = Some task
        /\ new_history_row s h task_id
             ("Task '" +++ TaskEntity.title task +++ "' has been deleted.")
        /\ TaskRepository.delete_by_id task_id
             (mkStore (users s) (projects s) (tasks s) (comments s)
                (task_history s ++ [h]) (enforce_fk s))
           = (Return tt, s')
        /\ List.length (task_history s') = S (List.length (task_history s))
        /\ (task_history s' = task_history s ++ [h]
            \/ task_history s' = map (set_null_where task_id) (task_history s ++ [h])))
  /\ (forall now task_id new_status s task' s',
      TaskServiceImpl.change_status now task_id new_status s = (Return task', s') ->
      exists task h,
        TaskRepository.find_by_id task_id s = Some task
        /\ TaskRepository.find_by_id task_id s' = Some task'
        /\ task_history s' = task_history s ++ [h]
        /\ new_history_row s h task_id
             ("Task '" +++ TaskEntity.title task +++ "' status changed from '"
              +++ TaskStatusEnum.name (TaskEntity.status task) +++ "' to '"
              +++ TaskStatusEnum.name new_status +++ "'.")).
Proof.
  split; [|split].
  - intros now dto s task s' R.
    destruct (ProjectRepository.find_by_id (CreateTaskDto.project_id dto) s)
      as [project|] eqn:F.
    + rewrite (create_task_run now dto s project F) in R.
      injection R as <- <-.
      eexists; exists (next_pk (tasks s)). cbn [task_history TaskEntity.id].
      split; [reflexivity|]. split; [reflexivity|]. split.
      { apply find_has_pk_none. intros e. apply next_pk_fresh. }
      split; [|apply history_row_new].
      apply (find_app_new (next_pk (tasks s)) (tasks s)); [|reflexivity].
      apply find_has_pk_none. intros e. apply next_pk_fresh.
    + unfold TaskServiceImpl.create_task, bind, query, raise in R.
      rewrite F in R. discriminate.
  - intros now task_id s s' R.
    destruct (TaskRepository.find_by_id task_id s) as [task|] eqn:F.
    + exists task. eexists. split; [reflexivity|].
      rewrite (delete_by_id_run now task_id s task F) in R.
      split; [apply history_row_new|]. split; [exact R|].
      match type of R with
      | TaskRepository.delete_by_id _ ?s1 = _ =>
          rewrite (task_delete_run task_id s1 task F) in R
      end.
      cbn [enforce_fk comments task_history] in R.
      destruct (enforce_fk s && _); [discriminate|].
      injection R as <-. cbn [task_history].
      destruct (enforce_fk s).
      * split; [|now right]. rewrite length_map, length_app. simpl. lia.
      * split; [|now left]. rewrite length_app. simpl. lia.
    + unfold TaskServiceImpl.delete_by_id, bind, query, raise in R.
      rewrite F in R. discriminate.
  - intros now task_id new_status s task' s' R.
    destruct (TaskRepository.find_by_id task_id s) as [task|] eqn:F.
    + exists task. eexists. split; [reflexivity|].
      rewrite (change_status_run now task_id new_status s task F) in R.
      injection R as <- <-. cbn [task_history].
      split.
      { apply (find_map_replace task_id (tasks s) task _ F).
        apply has_pk_iff. exact (proj2 (find_has_pk _ _ _ F)). }
      split; [reflexivity | apply history_row_new].
    + unfold TaskServiceImpl.change_status, bind, query, raise in R.
      rewrite F in R. discriminate.
Qed.

Lemma task_mutation_logs_one_history_row_witness :
  (exists task s' h,
      TaskServiceImpl.create_task 100 demo_dto demo_store = (Return task, s')
      /\ task_history s' = task_history demo_store ++ [h]
      /\ TaskHistoryEntity.task_id h = TaskEntity.id task
      /\ TaskHistoryEntity.change_description h = "New task 'Review' has been created."%string)
  /\ (exists s' h,
      TaskServiceImpl.delete_by_id 101 1 demo_store = (Return tt, s')
      /\ List.length (task_history s') = 2%nat
      /\ TaskHistoryEntity.task_id h = Some 1
      /\ TaskHistoryEntity.change_description h = "Task 'Draft' has been deleted."%string)
  /\ (exists task' s' h,
      TaskServiceImpl.change_status 102 1 TaskStatusEnum.BLOCKED demo_store
      = (Return task', s')
      /\ task_history s' = task_history demo_store ++ [h]
      /\ TaskHistoryEntity.task_id h = Some 1
      /\ TaskHistoryEntity.change_description h
         = "Task 'Draft' status changed from 'TO_DO' to 'BLOCKED'."%string).
Proof.
  destruct task_mutation_logs_one_history_row as (Hc & Hd & Hs).
  split; [|split].
  - destruct (TaskServiceImpl.create_task 100 demo_dto demo_store) as [o s'] eqn:R.
    assert (exists task, o = Return task) as [task ->].
    { vm_compute in R. injection R as <- _. eexists. reflexivity. }
    destruct (Hc _ _ _ _ _ R) as (h & i & Eh & Ei & _ & _ & _ & Et & Ed).
    exists task, s', h. repeat split; [exact Eh | congruence | exact Ed].
  - destruct (TaskServiceImpl.delete_by_id 101 1 demo_store) as [o s'] eqn:R.
    assert (o = Return tt) as ->.
    { vm_compute in R. injection R as <- _. reflexivity. }
    destruct (Hd _ _ _ _ R) as (task & h & F & (_ & Et & Ed) & _ & L & _).
    exists s', h. repeat split; [exact L | exact Et |].
    vm_compute in F. injection F as <-. exact Ed.
  - destruct (TaskServiceImpl.change_status 102 1 TaskStatusEnum.BLOCKED demo_store)
      as [o s'] eqn:R.
    assert (exists task', o = Return task') as [task' ->].
    { vm_compute in R. injection R as <- _. eexists. reflexivity. }
    destruct (Hs _ _ _ _ _ _ R) as (task & h & F & _ & Eh & _ & Et & Ed).
    exists task', s', h. repeat split; [exact Eh | exact Et |].
    vm_compute in F. injection F as <-. exact Ed.
Defined.

(** C2.  When the [project_id] of the DTO is the key of no stored project,
    [create_task] raises [ValueError] and leaves the store as it was: no
    task row and no history row is written. *)
Theorem create_task_unknown_project_writes_nothing :
  forall now dto s,
    (forall p, In p (projects s) ->
               ProjectEntity.id p <> Some (CreateTaskDto.project_id dto)) ->
    exists msg,
      TaskServiceImpl.create_task now dto s = (Raise (ValueError msg), s)
      /\ snd (TaskServiceImpl.create_task now dto s) = s.
Proof.
  intros now dto s N.
  assert (F : ProjectRepository.find_by_id (CreateTaskDto.project_id dto) s = None).
  { apply (find_has_pk_none (CreateTaskDto.project_id dto) (projects s)). exact N. }
  unfold TaskServiceImpl.create_task, bind, query, raise. rewrite F.
  eexists. split; reflexivity.
Qed.

Lemma create_task_unknown_project_writes_nothing_witness :
  (forall p, In p (projects demo_store) -> ProjectEntity.id p <> Some 7)
  /\ TaskServiceImpl.create_task 100
       (CreateTaskDto.mk "Review" "Second pass" 20 None TaskStatusEnum.TO_DO 7) demo_store
     = (Raise (ValueError "Project with ID 7 does not exist."), demo_store).
Proof.
  assert (N : forall p, In p (projects demo_store) -> ProjectEntity.id p <> Some 7).
  { intros p [<-|[]]. discriminate. }
  split; [exact N|].
  destruct (create_task_unknown_project_writes_nothing 100
              (CreateTaskDto.mk "Review" "Second pass" 20 None TaskStatusEnum.TO_DO 7)
              demo_store N) as (msg & E & _).
  rewrite E. vm_compute in E. injection E as <-. reflexivity.
Defined.

(** ** Users *)

(** C4.  When the e-mail of the DTO is the e-mail of a stored user,
    [create_user] raises the conflict error and leaves the store, hence
    the users, as they were; [UserAddResource.post] answers a validated
    body carrying that DTO with 409. *)
Theorem create_user_duplicate_email_conflict :
  forall dto s u,
    In u (users s) ->
    UserEntity.email u = CreateUserDto.email dto ->
    UserServiceImpl.create_user dto s
    = (Raise (ValueError "User with this email already exists."), s)
    /\ UserServiceImpl.find_all_users (snd (UserServiceImpl.create_user dto s)) = users s
    /\ (forall email_ok body,
           CreateUserSchema.ok email_ok body = true ->
           CreateUserDto.mk (CreateUserSchema.name body) (CreateUserSchema.surname body)
             (CreateUserSchema.email body) = dto ->
           UserAddResource.post email_ok body s
           = (mkResponse 409 (Message "User with this email already exists."), s)).
Proof.
  intros dto s u I E.
  assert (R : UserServiceImpl.create_user dto s
              = (Raise (ValueError "User with this email already exists."), s)).
  { unfold UserServiceImpl.create_user, bind, query, raise.
    destruct (UserRepository.find_by_email (CreateUserDto.email dto) s) eqn:F;
      [reflexivity|].
    unfold UserRepository.find_by_email in F.
    apply (find_none _ _ F) in I. rewrite E, String.eqb_refl in I. discriminate. }
  split; [exact R|]. split; [now rewrite R|].
  intros email_ok body V D.
  unfold UserAddResource.post, validate. rewrite V, D, R. reflexivity.
Qed.

Lemma create_user_duplicate_email_conflict_witness :
  UserServiceImpl.create_user
    (CreateUserDto.mk (Some "Anna"%string) "Long" "ann@example.org") demo_store
  = (Raise (ValueError "User with this email already exists."), demo_store)
  /\ UserAddResource.post (fun _ => true)
       (CreateUserSchema.mk (Some "Anna"%string) "Long" "ann@example.org") demo_store
     = (mkResponse 409 (Message "User with this email already exists."), demo_store).
Proof.
  destruct (create_user_duplicate_email_conflict
              (CreateUserDto.mk (Some "Anna"%string) "Long" "ann@example.org") demo_store
              (UserEntity.mk (Some 1) (Some "Ann"%string) "Lee" "ann@example.org")
              (or_introl eq_refl) eq_refl) as (R & _ & P).
  split; [exact R|].
  apply P; reflexivity.
Defined.

(** ** Sorting by a date field *)

(** C7.  For a sort field other than [start_date] and [end_date] the four
    sorting operations, of the project and task repositories and of the
    project and task services, raise [ValueError]; no list is returned and
    the store is untouched. *)
Theorem sort_field_outside_allow_list_rejected :
  forall sort_by descending s,
    sort_by <> "start_date"%string ->
    sort_by <> "end_date"%string ->
    (exists msg,
        ProjectRepository.find_all_sorted_by_date sort_by descending s
        = (Raise (ValueError msg), s))
    /\ (exists msg,
        TaskRepository.find_all_sorted_by_date sort_by descending s
        = (Raise (ValueError msg), s))
    /\ (exists msg,
        ProjectServiceImpl.find_all_sorted_by_date sort_by descending s
        = (Raise (ValueError msg), s))
    /\ (exists msg,
        TaskServiceImpl.find_all_sorted_by_date sort_by descending s
        = (Raise (ValueError msg), s)).
Proof.
  intros sort_by descending s N1 N2.
  assert (D : is_date_field sort_by = false).
  { unfold is_date_field, date_fields. simpl.
    apply String.eqb_neq in N1, N2. now rewrite N1, N2. }
  unfold ProjectRepository.find_all_sorted_by_date,
    TaskRepository.find_all_sorted_by_date,
    ProjectServiceImpl.find_all_sorted_by_date,
    TaskServiceImpl.find_all_sorted_by_date, raise.
  rewrite D. simpl. repeat split; eexists; reflexivity.
Qed.

Lemma sort_field_outside_allow_list_rejected_witness :
  (exists msg,
      ProjectRepository.find_all_sorted_by_date "name" false demo_store
      = (Raise (ValueError msg), demo_store))
  /\ (exists msg,
      TaskServiceImpl.find_all_sorted_by_date "id" true demo_store
      = (Raise (ValueError msg), demo_store)).
Proof.
  split.
  - apply (sort_field_outside_allow_list_rejected "name" false demo_store);
      discriminate.
  - apply (sort_field_outside_allow_list_rejected "id" true demo_store);
      discriminate.
Defined.

(** ** Deleting a task *)





Lemma filter_nil_existsb {A} (f : A -> bool) (l : list A) :
  filter f l = [] -> existsb f l = false.
Proof.
  induction l as [|x l IH]; simpl; [reflexivity|].
  destruct (f x); [discriminate | exact IH].
Qed.



(** ** Changing the status of a task *)

(** C10.  For a stored task and any new status, [change_status] rewrites
    the status column of that one row and nothing else: the other columns
    of the row keep their values, the rows before and after it in [tasks]
    are the same, the tables of users, projects and comments are the same,
    and [task_history] is the old table followed by one new row.  The
    primary key of [tasks] is unique, as the table declares. *)
Theorem change_status_touches_only_the_status :
  forall now task_id new_status s task,
    NoDup (map TaskEntity.id (tasks s)) ->
    TaskRepository.find_by_id task_id s = Some task ->
    exists task' s' h before after,
      TaskServiceImpl.change_status now task_id new_status s = (Return task', s')
      /\ TaskEntity.status task' = new_status
      /\ TaskEntity.id task' = TaskEntity.id task
      /\ TaskEntity.title task' = TaskEntity.title task
      /\ TaskEntity.description task' = TaskEntity.description task
      /\ TaskEntity.start_date task' = TaskEntity.start_date task
      /\ TaskEntity.end_date task' = TaskEntity.end_date task
      /\ TaskEntity.project_id task' = TaskEntity.project_id task
      /\ tasks s = before ++ task :: after
      /\ tasks s' = before ++ task' :: after
      /\ users s' = users s
      /\ projects s' = projects s
      /\ comments s' = comments s
      /\ task_history s' = task_history s ++ [h]
      /\ enforce_fk s' = enforce_fk s.
Proof.
  intros now task_id new_status s task U F.
  destruct (@find_split_unique _ TaskModel task_id (tasks s) task U F) as (before & after & E & Hb & Ha).
  exists (TaskEntity.set_status new_status task). eexists. eexists.
  exists before, after.
  split; [apply (change_status_run now task_id new_status s task F)|].
  cbn [tasks users projects comments task_history enforce_fk].
  repeat (split; [reflexivity|]).
  split; [exact E|]. split; [|repeat split].
  rewrite E. apply map_replace_split; [|exact Hb | exact Ha].
  apply has_pk_iff. exact (proj2 (find_has_pk _ _ _ F)).
Qed.

Lemma change_status_touches_only_the_status_witness :
  exists task' s' h,
    TaskServiceImpl.change_status 102 1 TaskStatusEnum.COMPLETED demo_store
    = (Return task', s')
    /\ TaskEntity.status task' = TaskStatusEnum.COMPLETED
    /\ TaskEntity.title task' = "Draft"%string
    /\ tasks s' = [task']
    /\ users s' = users demo_store
    /\ projects s' = projects demo_store
    /\ comments s' = comments demo_store
    /\ task_history s' = task_history demo_store ++ [h].
Proof.
  assert (U : NoDup (map TaskEntity.id (tasks demo_store))).
  { simpl. constructor; [intros [] | constructor]. }
  destruct (change_status_touches_only_the_status 102 1 TaskStatusEnum.COMPLETED
              demo_store
              (TaskEntity.mk (Some 1) "Draft" (Some "First draft"%string) (Some 12) None
                 TaskStatusEnum.TO_DO 1) U eq_refl)
    as (task' & s' & h & before & after & R & St & _ & Ti & _ & _ & _ & _
        & E & E' & Us & Pr & Co & Hi & _).
  exists task', s', h. split; [exact R|]. split; [exact St|]. split; [exact Ti|].
  split; [|repeat split; assumption].
  rewrite E'. destruct before as [|x before].
  - injection E as <-. reflexivity.
  - destruct before; discriminate.
Defined.

(** The hypothesis on the primary key is an invariant of the task
    service: whatever a call answers, it leaves the keys of [tasks]
    unique. *)
Lemma NoDup_map_filter {A B} (f : A -> B) (g : A -> bool) (l : list A) :
  NoDup (map f l) -> NoDup (map f (filter g l)).
Proof.
  induction l as [|x l IH]; simpl; intro N; [constructor|].
  inversion N as [|? ? NI N']; subst. destruct (g x); [|now apply IH].
  simpl. constructor; [|now apply IH].
  intro I. apply NI. apply in_map_iff in I as (y & E & I).
  apply in_map_iff. exists y. split; [exact E|]. now apply filter_In in I.
Qed.

Lemma task_service_keeps_keys_unique (s : Store) :
  NoDup (map TaskEntity.id (tasks s)) ->
  (forall now dto, NoDup (map TaskEntity.id
                            (tasks (snd (TaskServiceImpl.create_task now dto s)))))
  /\ (forall now task_id new_status,
         NoDup (map TaskEntity.id
                  (tasks (snd (TaskServiceImpl.change_status now task_id new_status s)))))
  /\ (forall now task_id,
         NoDup (map TaskEntity.id
                  (tasks (snd (TaskServiceImpl.delete_by_id now task_id s))))).
Proof.
  intro U. split; [|split].
  - intros now dto.
    destruct (ProjectRepository.find_by_id (CreateTaskDto.project_id dto) s)
      as [project|] eqn:F.
    + rewrite (create_task_run now dto s project F). cbn [snd tasks].
      rewrite map_app. cbn [map TaskEntity.id].
      apply NoDup_rev in U. rewrite <- (rev_involutive (_ ++ _)), rev_app_distr.
      apply NoDup_rev. simpl. constructor; [|exact U].
      intro I. apply in_rev, in_map_iff in I as (e & E & I).
      exact (@next_pk_fresh _ TaskModel (tasks s) e I E).
    + unfold TaskServiceImpl.create_task, bind, query, raise. now rewrite F.
  - intros now task_id new_status.
    destruct (TaskRepository.find_by_id task_id s) as [task|] eqn:F.
    + rewrite (change_status_run now task_id new_status s task F). cbn [snd tasks].
      rewrite map_map.
      erewrite map_ext_in; [exact U|].
      intros r I. cbn beta. destruct (has_pk task_id r) eqn:E; [|reflexivity].
      pose proof (proj1 (has_pk_iff task_id r) E) as Er.
      pose proof (proj2 (find_has_pk _ _ _ F)) as Et.
      cbn [pk TaskModel] in Er, Et.
      cbn [TaskEntity.set_status TaskEntity.id]. congruence.
    + unfold TaskServiceImpl.change_status, bind, query, raise. now rewrite F.
  - intros now task_id.
    destruct (TaskRepository.find_by_id task_id s) as [task|] eqn:F.
    + rewrite (delete_by_id_run now task_id s task F).
      match goal with
      | |- context [TaskRepository.delete_by_id _ ?s1] =>
          rewrite (task_delete_run task_id s1 task F)
      end.
      destruct (_ && _); cbn [snd tasks]; [exact U | now apply NoDup_map_filter].
    + unfold TaskServiceImpl.delete_by_id, bind, query, raise. now rewrite F.
Qed.

(** ** Status strings at the boundary *)

Lemma task_status_getitem_name (m : TaskStatusEnum.t) :
  TaskStatusEnum.getitem (TaskStatusEnum.name m) = Some m.
Proof. destruct m; reflexivity. Qed.

Lemma project_status_getitem_name (m : ProjectStatusEnum.t) :
  ProjectStatusEnum.getitem (ProjectStatusEnum.name m) = Some m.
Proof. destruct m; reflexivity. Qed.

Lemma project_status_getitem_some (key : string) (m : ProjectStatusEnum.t) :
  ProjectStatusEnum.getitem key = Some m -> key = ProjectStatusEnum.name m.
Proof.
  intro G. apply find_some in G as [_ E]. apply String.eqb_eq in E. now symmetry.
Qed.

Lemma project_insert_run (s : Store) (e : ProjectEntity.t) (u : UserEntity.t) :
  ProjectEntity.id e = None ->
  UserRepository.find_by_id (ProjectEntity.user_id e) s = Some u ->
  ProjectRepository.save_or_update e s
  = (Return (ProjectEntity.with_id (next_pk (projects s)) e),
     mkStore (users s) (projects s ++ [ProjectEntity.with_id (next_pk (projects s)) e])
       (tasks s) (comments s) (task_history s) (enforce_fk s)).
Proof.
  intros N F.
  unfold ProjectRepository.save_or_update, CrudRepositoryORM.save_or_update.
  cbn [pk ProjectModel constraints]. rewrite N.
  rewrite (fk_ok_parent s _ None e (ProjectEntity.user_id e) UserEntity.id (users s));
    [reflexivity | reflexivity | exact (references_pk _ (users s) u F)].
Qed.

(** C5.  A task status string is upper-cased before it is looked up among
    the member names: a validated POST whose status upper-cases to the
    name of a member, as [to_do] does to [TO_DO], is answered 201 and the
    task is stored with that member.  A project status string is looked up
    as written: a POST whose status is not literally a member name, as
    [planned] is not, is answered 400 and stores nothing, while [PLANNED]
    is accepted. *)
Theorem status_strings_case_rules :
  (forall now b s m project,
      CreateTaskSchema.ok b = true ->
      upper (CreateTaskSchema.status b) = TaskStatusEnum.name m ->
      ProjectRepository.find_by_id (CreateTaskSchema.project_id b) s = Some project ->
      exists s' task,
        TaskAddToProjectResource.post now b s
        = (mkResponse 201 (Message "Task added successfully!"), s')
        /\ tasks s' = tasks s ++ [task]
        /\ TaskEntity.status task = m)
  /\ upper "to_do" = TaskStatusEnum.name TaskStatusEnum.TO_DO
  /\ (forall b s,
      (forall m, CreateProjectSchema.status b <> ProjectStatusEnum.name m) ->
      exists body, ProjectResourceAdd.post b s = (mkResponse 400 body, s))
  /\ (forall m, "planned"%string <> ProjectStatusEnum.name m)
  /\ upper "planned" = ProjectStatusEnum.name ProjectStatusEnum.PLANNED
  /\ (forall b s u,
      CreateProjectSchema.ok b = true ->
      CreateProjectSchema.status b = "PLANNED"%string ->
      UserRepository.find_by_id (CreateProjectSchema.user_id b) s = Some u ->
      exists s' project,
        ProjectResourceAdd.post b s
        = (mkResponse 201 (Message "Project added successfully!"), s')
        /\ projects s' = projects s ++ [project]
        /\ ProjectEntity.status project = ProjectStatusEnum.PLANNED).
Proof.
  split; [|split; [|split; [|split; [|split]]]].
  - intros now b s m project V U F.
    unfold TaskAddToProjectResource.post, validate.
    rewrite V, U, task_status_getitem_name.
    rewrite (create_task_run now
               (CreateTaskDto.mk (CreateTaskSchema.title b) (CreateTaskSchema.description b)
                  (CreateTaskSchema.start_date b) (CreateTaskSchema.end_date b) m
                  (CreateTaskSchema.project_id b)) s project F).
    eexists. eexists. split; [reflexivity|].
    cbn [tasks]. split; reflexivity.
  - reflexivity.
  - intros b s N. unfold ProjectResourceAdd.post, validate.
    destruct (CreateProjectSchema.ok b); [|eexists; reflexivity].
    destruct (ProjectStatusEnum.getitem (CreateProjectSchema.status b)) as [m|] eqn:G.
    + apply project_status_getitem_some in G. now apply N in G.
    + eexists. reflexivity.
  - intros m. destruct m; discriminate.
  - reflexivity.
  - intros b s u V St F. unfold ProjectResourceAdd.post, validate.
    rewrite V, St. change (ProjectStatusEnum.getitem "PLANNED") with (Some ProjectStatusEnum.PLANNED).
    unfold ProjectServiceImpl.create_project.
    cbn [CreateProjectDto.name CreateProjectDto.description CreateProjectDto.start_date
         CreateProjectDto.end_date CreateProjectDto.status CreateProjectDto.user_id].
    rewrite (project_insert_run s
               (ProjectEntity.mk None (CreateProjectSchema.name b)
                  (CreateProjectSchema.description b) (CreateProjectSchema.start_date b)
                  (CreateProjectSchema.end_date b) ProjectStatusEnum.PLANNED
                  (CreateProjectSchema.user_id b)) u eq_refl F).
    eexists. eexists. split; [reflexivity|].
    cbn [projects]. split; reflexivity.
Qed.

Lemma status_strings_case_rules_witness :
  (exists s',
      TaskAddToProjectResource.post 100
        (CreateTaskSchema.mk "Review" "Second pass" 20 None "to_do" 1) demo_store
      = (mkResponse 201 (Message "Task added successfully!"), s'))
  /\ (exists body,
      ProjectResourceAdd.post
        (CreateProjectSchema.mk "Shop" "Web shop" 30 None "planned" 1) demo_store
      = (mkResponse 400 body, demo_store))
  /\ (exists s',
      ProjectResourceAdd.post
        (CreateProjectSchema.mk "Shop" "Web shop" 30 None "PLANNED" 1) demo_store
      = (mkResponse 201 (Message "Project added successfully!"), s')).
Proof.
  destruct status_strings_case_rules as (T & _ & R & N & _ & A).
  split; [|split].
  - destruct (T 100 (CreateTaskSchema.mk "Review" "Second pass" 20 None "to_do" 1)
                demo_store TaskStatusEnum.TO_DO
                (ProjectEntity.mk (Some 1) "Site" "New site" 10 None
                   ProjectStatusEnum.PLANNED 1) eq_refl eq_refl eq_refl)
      as (s' & task & E & _).
    exists s'. exact E.
  - apply R. exact N.
  - destruct (A (CreateProjectSchema.mk "Shop" "Web shop" 30 None "PLANNED" 1)
                demo_store
                (UserEntity.mk (Some 1) (Some "Ann"%string) "Lee" "ann@example.org")
                eq_refl eq_refl eq_refl)
      as (s' & project & E & _).
    exists s'. exact E.
Defined.

(** ** Ascending and descending order *)

Lemma key_leb_total (a b : option date) : key_leb a b = true \/ key_leb b a = true.
Proof.
  destruct a as [x|], b as [y|]; simpl; auto.
  destruct (Z.leb_spec x y); [now left | right; apply Z.leb_le; lia].
Qed.

Lemma key_leb_trans (a b c : option date) :
  key_leb a b = true -> key_leb b c = true -> key_leb a c = true.
Proof.
  destruct a as [x|], b as [y|], c as [z|]; simpl; try congruence.
  rewrite !Z.leb_le. lia.
Qed.

Lemma key_leb_antisym (a b : option date) :
  key_leb a b = true -> key_leb b a = true -> a = b.
Proof.
  destruct a as [x|], b as [y|]; simpl; try congruence.
  rewrite !Z.leb_le. intros. f_equal. lia.
Qed.

Lemma precedes_total (d : bool) (a b : option date) :
  precedes d a b = true \/ precedes d b a = true.
Proof. destruct d; apply key_leb_total. Qed.

Lemma precedes_trans (d : bool) (a b c : option date) :
  precedes d a b = true -> precedes d b c = true -> precedes d a c = true.
Proof.
  destruct d; simpl; intros; [apply (key_leb_trans c b a) | apply (key_leb_trans a b c)];
    assumption.
Qed.

Section OrderByFacts.
Context {T : Type} (col : T -> option date).

Lemma insert_row_perm (d : bool) (x : T) (l : list T) :
  Permutation (insert_row col d x l) (x :: l).
Proof.
  induction l as [|y l IH]; simpl; [reflexivity|].
  destruct (precedes d (col x) (col y)); [reflexivity|].
  rewrite IH. apply perm_swap.
Qed.

(** The query returns the rows of the table, each once. *)
Lemma order_by_perm (d : bool) (l : list T) : Permutation (order_by col d l) l.
Proof.
  induction l as [|x l IH]; simpl; [reflexivity|].
  rewrite insert_row_perm. now constructor.
Qed.

Lemma insert_row_sorted (d : bool) (x : T) (l : list T) :
  StronglySorted (in_order col d) l -> StronglySorted (in_order col d) (insert_row col d x l).
Proof.
  induction l as [|y l IH]; intro S; simpl.
  - constructor; constructor.
  - inversion S as [|? ? S' F]; subst.
    destruct (precedes d (col x) (col y)) eqn:E.
    + constructor; [exact S|]. constructor; [exact E|].
      apply Forall_forall. intros z I. rewrite Forall_forall in F.
      apply (precedes_trans d _ (col y)); [exact E | now apply F].
    + constructor; [now apply IH|].
      apply Forall_forall. intros z I.
      apply (Permutation_in _ (insert_row_perm d x l)) in I.
      destruct I as [Ez|I].
      * subst z. destruct (precedes_total d (col y) (col x)) as [P|P]; [exact P|].
        congruence.
      * rewrite Forall_forall in F. now apply F.
Qed.

(** The result is ordered by the column in the direction asked for. *)
Lemma order_by_sorted (d : bool) (l : list T) :
  StronglySorted (in_order col d) (order_by col d l).
Proof.
  induction l as [|x l IH]; simpl; [constructor | now apply insert_row_sorted].
Qed.

Lemma sorted_snoc (R : T -> T -> Prop) (l : list T) (a : T) :
  StronglySorted R l -> (forall x, In x l -> R x a) -> StronglySorted R (l ++ [a]).
Proof.
  induction l as [|y l IH]; intros S F; simpl.
  - constructor; constructor.
  - inversion S as [|? ? S' F']; subst. constructor.
    + apply IH; [exact S'|]. intros x I. apply F. now right.
    + apply Forall_forall. intros z I. apply in_app_or in I as [I|[<-|[]]].
      * rewrite Forall_forall in F'. now apply F'.
      * apply F. now left.
Qed.

(** Reading an ascending result backwards gives a descending one. *)
Lemma rev_sorted (l : list T) :
  StronglySorted (in_order col false) l -> StronglySorted (in_order col true) (rev l).
Proof.
  induction l as [|x l IH]; intro S; simpl; [constructor|].
  inversion S as [|? ? S' F]; subst.
  apply sorted_snoc; [now apply IH|].
  intros y I. apply in_rev in I. rewrite Forall_forall in F. exact (F y I).
Qed.

(** Two orderings of the same rows in the same direction are the same
    list as soon as no two rows share a key: this holds for whatever
    engine produces them. *)
Lemma ordered_unique (d : bool) (l1 l2 : list T) :
  NoDup (map col l1) ->
  Permutation l1 l2 ->
  StronglySorted (in_order col d) l1 -> StronglySorted (in_order col d) l2 ->
  l1 = l2.
Proof.
  revert l2. induction l1 as [|a l1 IH]; intros l2 N P S1 S2.
  - apply Permutation_nil in P. now subst.
  - destruct l2 as [|b l2].
    { apply Permutation_sym, Permutation_nil in P. discriminate. }
    inversion S1 as [|? ? S1' F1]; subst. inversion S2 as [|? ? S2' F2]; subst.
    rewrite Forall_forall in F1, F2.
    simpl in N. inversion N as [|? ? NI N']; subst.
    assert (E : a = b).
    { assert (Ia : In a (b :: l2)) by (apply (Permutation_in _ P); now left).
      assert (Ib : In b (a :: l1))
        by (apply (Permutation_in _ (Permutation_sym P)); now left).
      destruct Ia as [->|Ia]; [reflexivity|].
      destruct Ib as [->|Ib]; [reflexivity|].
      exfalso. apply NI.
      assert (K : col a = col b).
      { destruct d; [symmetry|]; apply key_leb_antisym;
          first [exact (F1 b Ib) | exact (F2 a Ia)]. }
      rewrite K. now apply in_map. }
    subst b. f_equal. apply IH; [exact N' | | exact S1' | exact S2'].
    now apply Permutation_cons_inv in P.
Qed.

(** Without ties the descending result is the ascending one reversed. *)
Lemma order_by_desc_rev (l : list T) :
  NoDup (map col l) -> order_by col true l = rev (order_by col false l).
Proof.
  intro N. apply (ordered_unique true).
  - apply (Permutation_NoDup (l := map col l)); [|exact N].
    apply Permutation_map, Permutation_sym, order_by_perm.
  - rewrite order_by_perm, <- Permutation_rev. symmetry. apply order_by_perm.
  - apply order_by_sorted.
  - apply rev_sorted, order_by_sorted.
Qed.
End OrderByFacts.

(** C6, as stated, fails: with two projects that start on the same day the
    ascending and the descending query return the same list, which is not
    its own reverse. *)
Lemma descending_is_not_reverse_on_ties :
  exists asc desc,
    ProjectRepository.find_all_sorted_by_date "start_date" false tied_store
    = (Return asc, tied_store)
    /\ ProjectRepository.find_all_sorted_by_date "start_date" true tied_store
       = (Return desc, tied_store)
    /\ desc <> rev asc.
Proof.
  eexists. eexists. split; [reflexivity|]. split; [reflexivity|].
  vm_compute. discriminate.
Qed.

(** C6, amended.  When no two stored projects (tasks) have the same
    [start_date], sorting by [start_date] with [descending = True] returns
    the reverse of the list returned with [descending = False], at the
    repository and at the service layer. *)
Theorem descending_reverses_ascending_without_ties :
  forall s,
    (NoDup (map ProjectEntity.start_date (projects s)) ->
     exists l,
       ProjectRepository.find_all_sorted_by_date "start_date" false s = (Return l, s)
       /\ ProjectRepository.find_all_sorted_by_date "start_date" true s
          = (Return (rev l), s)
       /\ ProjectServiceImpl.find_all_sorted_by_date "start_date" false s = (Return l, s)
       /\ ProjectServiceImpl.find_all_sorted_by_date "start_date" true s
          = (Return (rev l), s))
    /\ (NoDup (map TaskEntity.start_date (tasks s)) ->
        exists l,
          TaskRepository.find_all_sorted_by_date "start_date" false s = (Return l, s)
          /\ TaskRepository.find_all_sorted_by_date "start_date" true s
             = (Return (rev l), s)
          /\ TaskServiceImpl.find_all_sorted_by_date "start_date" false s = (Return l, s)
          /\ TaskServiceImpl.find_all_sorted_by_date "start_date" true s
             = (Return (rev l), s)).
Proof.
  intro s. split; intro N.
  - exists (order_by (ProjectRepository.column "start_date") false (projects s)).
    assert (E : order_by (ProjectRepository.column "start_date") true (projects s)
                = rev (order_by (ProjectRepository.column "start_date") false (projects s))).
    { apply order_by_desc_rev.
      change (ProjectRepository.column "start_date")
        with (fun p => Some (ProjectEntity.start_date p)).
      rewrite <- (map_map ProjectEntity.start_date Some).
      apply Finite.Injective_map_NoDup; [|exact N].
      intros x y Q. now injection Q. }
    unfold ProjectServiceImpl.find_all_sorted_by_date,
      ProjectRepository.find_all_sorted_by_date, query.
    cbn [is_date_field date_fields existsb String.eqb Ascii.eqb Bool.eqb negb orb].
    rewrite E. repeat split.
  - exists (order_by (TaskRepository.column "start_date") false (tasks s)).
    assert (E : order_by (TaskRepository.column "start_date") true (tasks s)
                = rev (order_by (TaskRepository.column "start_date") false (tasks s))).
    { apply order_by_desc_rev. exact N. }
    unfold TaskServiceImpl.find_all_sorted_by_date,
      TaskRepository.find_all_sorted_by_date, query.
    cbn [is_date_field date_fields existsb String.eqb Ascii.eqb Bool.eqb negb orb].
    rewrite E. repeat split.
Qed.

Lemma descending_reverses_ascending_without_ties_witness :
  (exists l,
      ProjectRepository.find_all_sorted_by_date "start_date" false dated_store
      = (Return l, dated_store)
      /\ ProjectRepository.find_all_sorted_by_date "start_date" true dated_store
         = (Return (rev l), dated_store)
      /\ map ProjectEntity.id l = [Some 2; Some 1; Some 3])
  /\ (exists l,
      TaskRepository.find_all_sorted_by_date "start_date" false dated_store
      = (Return l, dated_store)
      /\ TaskRepository.find_all_sorted_by_date "start_date" true dated_store
         = (Return (rev l), dated_store)
      /\ map TaskEntity.id l = [Some 2; Some 3; Some 1]).
Proof.
  destruct (descending_reverses_ascending_without_ties dated_store) as [P T].
  split.
  - destruct P as (l & A & D & _).
    { simpl. repeat constructor; simpl; intuition discriminate. }
    exists l. split; [exact A|]. split; [exact D|].
    vm_compute in A. injection A as <-. reflexivity.
  - destruct T as (l & A & D & _).
    { simpl. repeat constructor; simpl; intuition discriminate. }
    exists l. split; [exact A|]. split; [exact D|].
    vm_compute in A. injection A as <-. reflexivity.
Defined.

(** ** Requests that name a missing entity *)

(** C8, as stated, fails: the task with key 9 is not stored, and the
    DELETE handler answers 500, not 404. *)
Lemma delete_of_missing_task_answers_500 :
  TaskServiceImpl.find_by_id 9 demo_store = None
  /\ TaskResourceID.delete 100 9 demo_store
     = (mkResponse 500 (Message "Task not deleted"), demo_store)
  /\ status_code (fst (TaskResourceID.delete 100 9 demo_store)) <> 404.
Proof.
  split; [reflexivity|]. split; [reflexivity|]. discriminate.
Qed.

(** C8, amended.  When the entity named by the request is not stored, the
    GET handlers of tasks, projects, users and comments and the PUT
    handlers of tasks and comments (for a body that passes validation)
    answer 404, the DELETE handlers of all four answer 500, and none of
    them changes the store. *)
Theorem missing_entity_status_codes :
  forall now id_ s,
    (TaskServiceImpl.find_by_id id_ s = None ->
     TaskResourceID.get id_ s = (mkResponse 404 (Message "Task not found"), s)
     /\ (forall b,
            TaskResourceID.put now id_ b s = (mkResponse 404 (Message "Task not found"), s))
     /\ TaskResourceID.delete now id_ s = (mkResponse 500 (Message "Task not deleted"), s))
    /\ (ProjectServiceImpl.find_by_id id_ s = None ->
        ProjectResourceID.get id_ s = (mkResponse 404 (Message "Project not found"), s)
        /\ ProjectResourceID.delete id_ s
           = (mkResponse 500 (Message "Project not deleted"), s))
    /\ (UserServiceImpl.find_by_id id_ s = None ->
        UserResourceID.get id_ s = (mkResponse 404 (Message "User not found"), s)
        /\ UserResourceID.delete id_ s = (mkResponse 500 (Message "User not deleted"), s))
    /\ (CommentServiceImpl.find_by_id id_ s = None ->
        CommentResourceID.get id_ s = (mkResponse 404 (Message "Comment not found"), s)
        /\ (forall b,
               CreateCommentSchema.ok b = true ->
               CommentResourceID.put now id_ b s
               = (mkResponse 404 (Message "Comment not found"), s))
        /\ CommentResourceID.delete id_ s
           = (mkResponse 500 (Message "Comment not deleted"), s)).
Proof.
  intros now id_ s. split; [|split; [|split]]; intro F.
  - unfold TaskResourceID.get, TaskResourceID.put, TaskResourceID.delete, validate.
    simpl. rewrite F. repeat split.
  - unfold ProjectResourceID.get, ProjectResourceID.delete. rewrite F. split; reflexivity.
  - unfold UserResourceID.get, UserResourceID.delete. rewrite F. split; reflexivity.
  - unfold CommentResourceID.get, CommentResourceID.put, CommentResourceID.delete, validate.
    rewrite F. split; [reflexivity|]. split; [|reflexivity].
    intros b V. now rewrite V.
Qed.

Lemma missing_entity_status_codes_witness :
  TaskResourceID.get 9 demo_store = (mkResponse 404 (Message "Task not found"), demo_store)
  /\ TaskResourceID.put 100 9 (UpdateTaskStatusSchema.mk "blocked") demo_store
     = (mkResponse 404 (Message "Task not found"), demo_store)
  /\ ProjectResourceID.delete 9 demo_store
     = (mkResponse 500 (Message "Project not deleted"), demo_store)
  /\ UserResourceID.delete 9 demo_store
     = (mkResponse 500 (Message "User not deleted"), demo_store)
  /\ CommentResourceID.put 100 9 (CreateCommentSchema.mk "Looks fine" 1) demo_store
     = (mkResponse 404 (Message "Comment not found"), demo_store).
Proof.
  destruct (missing_entity_status_codes 100 9 demo_store) as (T & P & U & C).
  destruct (T eq_refl) as (Tg & Tp & _).
  destruct (P eq_refl) as (_ & Pd).
  destruct (U eq_refl) as (_ & Ud).
  destruct (C eq_refl) as (_ & Cp & _).
  split; [exact Tg|]. split; [apply Tp|]. split; [exact Pd|]. split; [exact Ud|].
  apply Cp. reflexivity.
Defined.

(** ** Assigning a user to a project *)

Lemma assign_missing_side_raises_value_error (user_id project_id : Z) (s : Store) :
  UserRepository.find_by_id user_id s = None
  \/ ProjectRepository.find_by_id project_id s = None ->
  exists msg,
    UserRepository.assign_user_to_project user_id project_id s = (Raise (ValueError msg), s).
Proof.
  unfold UserRepository.assign_user_to_project, bind, query, raise.
  unfold ProjectRepository.find_by_id.
  intros [E|E].
  - rewrite E. eexists. reflexivity.
  - rewrite E. destruct (UserRepository.find_by_id user_id s); eexists; reflexivity.
Qed.

(** Whenever both sides exist the membership test on the scalar
    relationship raises: no assignment is ever recorded. *)
Lemma assign_existing_sides_raises_type_error (user_id project_id : Z) (s : Store)
    (u : UserEntity.t) (p : ProjectEntity.t) :
  UserRepository.find_by_id user_id s = Some u ->
  ProjectRepository.find_by_id project_id s = Some p ->
  exists msg,
    UserRepository.assign_user_to_project user_id project_id s = (Raise (TypeError msg), s).
Proof.
  intros U P.
  unfold UserRepository.assign_user_to_project, bind, query, raise.
  unfold ProjectRepository.find_by_id in P. rewrite U, P.
  unfold UserRepository.contains, raise.
  destruct (UserRepository.project_users p s); eexists; reflexivity.
Qed.

(** C9, at a failing input.  User 2 and project 1 both exist and the user
    has no project; [assign_user_to_project] raises [TypeError] and the
    store is as before: the assignment is not recorded. *)
Theorem assign_user_to_project_records_nothing :
  UserRepository.find_by_id 2 team_store
  = Some (UserEntity.mk (Some 2) (Some "Bob"%string) "Ray" "bob@example.org")
  /\ ProjectRepository.find_by_id 1 team_store
     = Some (ProjectEntity.mk (Some 1) "Site" "New site" 10 None
               ProjectStatusEnum.PLANNED 1)
  /\ UserServiceImpl.get_user_projects 2 team_store = (Return [], team_store)
  /\ UserServiceImpl.assign_user_to_project 2 1 team_store
     = (Raise (TypeError "argument of type 'UserEntity' is not iterable"), team_store)
  /\ UserServiceImpl.get_user_projects 2
       (snd (UserServiceImpl.assign_user_to_project 2 1 team_store))
     = (Return [], team_store).
Proof.
  repeat split.
Qed.

(** * Further properties of the repositories, services and resources *)

(** ** The generic repository *)

#[export] Instance UserLawful : LawfulModel UserEntity.t.
Proof.
  split; try reflexivity.
  intros i s s1. cbn [unlink UserModel]. destruct (_ && _); [discriminate|].
  now intros [= <-].
Qed.

#[export] Instance ProjectLawful : LawfulModel ProjectEntity.t.
Proof.
  split; try reflexivity.
  intros i s s1. cbn [unlink ProjectModel]. destruct (_ && _); [discriminate|].
  now intros [= <-].
Qed.

#[export] Instance TaskLawful : LawfulModel TaskEntity.t.
Proof.
  split; try reflexivity.
  intros i s s1. cbn [unlink TaskModel]. destruct (enforce_fk s).
  - destruct (references _ i (comments s)); [discriminate|]. now intros [= <-].
  - now intros [= <-].
Qed.

#[export] Instance CommentLawful : LawfulModel CommentEntity.t.
Proof.
  split; try reflexivity. intros i s s1. now intros [= <-].
Qed.

#[export] Instance TaskHistoryLawful : LawfulModel TaskHistoryEntity.t.
Proof.
  split; try reflexivity. intros i s s1. now intros [= <-].
Qed.

Section Crud.
Context {T : Type} `{LawfulModel T}.

Lemma has_pk_other (i j : Z) (e : T) : pk e = Some i -> j <> i -> has_pk j e = false.
Proof.
  intros P N. unfold has_pk. rewrite P. now apply Z.eqb_neq.
Qed.

Lemma find_snoc_other (j : Z) (l : list T) (x : T) :
  has_pk j x = false -> find (has_pk j) (l ++ [x]) = find (has_pk j) l.
Proof.
  intro E. induction l as [|y l IH]; simpl; [now rewrite E|].
  destruct (has_pk j y); [reflexivity | exact IH].
Qed.

Lemma find_replace_other (i j : Z) (l : list T) (e : T) :
  pk e = Some i -> j <> i ->
  find (has_pk j) (map (fun r => if has_pk i r then e else r) l) = find (has_pk j) l.
Proof.
  intros P N. induction l as [|y l IH]; simpl; [reflexivity|].
  destruct (has_pk i y) eqn:E.
  - rewrite (has_pk_other i j e P N).
    apply has_pk_iff in E. rewrite (has_pk_other i j y E N). exact IH.
  - destruct (has_pk j y); [reflexivity | exact IH].
Qed.

Lemma find_filter_other (i j : Z) (l : list T) :
  j <> i ->
  find (has_pk j) (filter (fun r => negb (has_pk i r)) l) = find (has_pk j) l.
Proof.
  intro N. induction l as [|y l IH]; simpl; [reflexivity|].
  destruct (has_pk i y) eqn:E; simpl.
  - apply has_pk_iff in E. now rewrite (has_pk_other i j y E N).
  - destruct (has_pk j y); [reflexivity | exact IH].
Qed.

Lemma find_filter_same (i : Z) (l : list T) :
  find (has_pk i) (filter (fun r => negb (has_pk i r)) l) = None.
Proof.
  apply find_has_pk_none. intros e I P. apply filter_In in I as [_ I].
  apply has_pk_iff in P. rewrite P in I. discriminate.
Qed.

(** X1.  Saving a transient entity and looking it up: the entity comes back
    with a key that no stored row had, [find_by_id] under that key returns
    it, every other lookup answers as before, and [find_all] is the old
    list followed by the new row. *)
Theorem save_new_then_find (e : T) (s : Store) (e' : T) (s' : Store) :
  pk e = None ->
  CrudRepositoryORM.save_or_update e s = (Return e', s') ->
  exists i,
    e' = with_pk i e
    /\ pk e' = Some i
    /\ CrudRepositoryORM.find_by_id i s = None
    /\ CrudRepositoryORM.find_by_id i s' = Some e'
    /\ (forall j, j <> i ->
                  CrudRepositoryORM.find_by_id j s' = CrudRepositoryORM.find_by_id j s)
    /\ CrudRepositoryORM.find_all s' = CrudRepositoryORM.find_all s ++ [e'].
Proof.
  intros P R. unfold CrudRepositoryORM.save_or_update in R. rewrite P in R.
  destruct (constraints s None e); [|discriminate].
  injection R as <- <-. exists (next_pk (rows s)).
  unfold CrudRepositoryORM.find_by_id, CrudRepositoryORM.find_all.
  rewrite rows_set_rows.
  assert (F : find (has_pk (next_pk (rows s))) (rows s) = None).
  { apply find_has_pk_none. intros x. apply next_pk_fresh. }
  split; [reflexivity|]. split; [apply pk_with_pk|]. split; [exact F|].
  split; [apply find_app_new; [exact F | apply pk_with_pk]|].
  split; [|reflexivity].
  intros j N. apply find_snoc_other.
  apply (has_pk_other (next_pk (rows s))); [apply pk_with_pk | exact N].
Qed.

(** X2.  Saving a persistent entity whose row exists overwrites that row:
    the lookup under its key returns the entity as saved, every other
    lookup answers as before, and the table keeps its length. *)
Theorem save_existing_then_find (i : Z) (e old : T) (s : Store) (e' : T) (s' : Store) :
  pk e = Some i ->
  CrudRepositoryORM.find_by_id i s = Some old ->
  CrudRepositoryORM.save_or_update e s = (Return e', s') ->
  e' = e
  /\ CrudRepositoryORM.find_by_id i s' = Some e
  /\ (forall j, j <> i ->
                CrudRepositoryORM.find_by_id j s' = CrudRepositoryORM.find_by_id j s)
  /\ List.length (CrudRepositoryORM.find_all s') = List.length (CrudRepositoryORM.find_all s).
Proof.
  intros P F R. unfold CrudRepositoryORM.save_or_update in R. rewrite P, F in R.
  destruct (constraints s (Some old) e); [|discriminate].
  injection R as <- <-.
  unfold CrudRepositoryORM.find_by_id, CrudRepositoryORM.find_all in *.
  rewrite rows_set_rows. split; [reflexivity|]. split.
  - apply (find_map_replace i (rows s) old e F). now apply has_pk_iff.
  - split; [|apply length_map]. intros j N. now apply find_replace_other.
Qed.

(** X3.  [delete_by_id] under a key that is not stored does nothing.  When
    it returns, no row is found under the key and every other lookup in
    the table answers as before; when it raises, the error is the
    [IntegrityError] of the engine and the store is as before. *)
Theorem delete_by_id_then_find (i : Z) (s : Store) :
  (CrudRepositoryORM.find_by_id (T := T) i s = None ->
   CrudRepositoryORM.delete_by_id (T := T) i s = (Return tt, s))
  /\ (forall s',
         CrudRepositoryORM.delete_by_id (T := T) i s = (Return tt, s') ->
         CrudRepositoryORM.find_by_id (T := T) i s' = None
         /\ (forall j, j <> i ->
                       CrudRepositoryORM.find_by_id (T := T) j s'
                       = CrudRepositoryORM.find_by_id j s))
  /\ (forall e s',
         CrudRepositoryORM.delete_by_id (T := T) i s = (Raise e, s') ->
         e = IntegrityError /\ s' = s).
Proof.
  unfold CrudRepositoryORM.delete_by_id, CrudRepositoryORM.find_by_id.
  split; [|split].
  - intro F. now rewrite F.
  - intros s' R. destruct (find (has_pk i) (rows s)) as [x|] eqn:F.
    + destruct (unlink i s) as [s1|] eqn:U; [|discriminate].
      injection R as <-. rewrite rows_set_rows, (unlink_rows i s s1 U).
      split; [apply find_filter_same|]. intros j N. now apply find_filter_other.
    + injection R as <-. split; [exact F | reflexivity].
  - intros e s' R. destruct (find (has_pk i) (rows s)) as [x|]; [|discriminate].
    destruct (unlink i s); [discriminate|]. injection R as <- <-. split; reflexivity.
Qed.
End Crud.

Lemma save_new_then_find_witness :
  exists e' s',
    CommentRepository.save_or_update (CommentEntity.mk None "Looks fine" 60 1) demo_store
    = (Return e', s')
    /\ CommentRepository.find_by_id 1 demo_store = None
    /\ CommentRepository.find_by_id 1 s' = Some e'.
Proof.
  eexists. eexists. split; [reflexivity|].
  destruct (@save_new_then_find _ CommentModel CommentLawful (CommentEntity.mk None "Looks fine" 60 1) demo_store
              _ _ eq_refl eq_refl) as (i & _ & P & F & F' & _).
  injection P as <-. split; [exact F | exact F'].
Defined.

Lemma save_existing_then_find_witness :
  exists e' s',
    TaskRepository.save_or_update
      (TaskEntity.mk (Some 1) "Draft" (Some "Final draft"%string) (Some 12) (Some 14)
         TaskStatusEnum.COMPLETED 1) demo_store
    = (Return e', s')
    /\ TaskRepository.find_by_id 1 s' = Some e'
    /\ List.length (TaskRepository.find_all s') = 1%nat.
Proof.
  eexists. eexists. split; [reflexivity|].
  destruct (@save_existing_then_find _ TaskModel TaskLawful 1
              (TaskEntity.mk (Some 1) "Draft" (Some "Final draft"%string) (Some 12)
                 (Some 14) TaskStatusEnum.COMPLETED 1)
              (TaskEntity.mk (Some 1) "Draft" (Some "First draft"%string) (Some 12) None
                 TaskStatusEnum.TO_DO 1)
              demo_store _ _ eq_refl eq_refl eq_refl) as (_ & F & _ & L).
  split; [exact F | exact L].
Defined.

Lemma delete_by_id_then_find_witness :
  UserRepository.delete_by_id 2 team_store
  = (Return tt, snd (UserRepository.delete_by_id 2 team_store))
  /\ UserRepository.find_by_id 2 (snd (UserRepository.delete_by_id 2 team_store)) = None
  /\ UserRepository.find_by_id 1 (snd (UserRepository.delete_by_id 2 team_store))
     = UserRepository.find_by_id 1 team_store.
Proof.
  split; [reflexivity|].
  destruct (@delete_by_id_then_find _ UserModel UserLawful 2 team_store) as (_ & D & _).
  destruct (D (snd (UserRepository.delete_by_id 2 team_store)) eq_refl) as [N O].
  split; [exact N|]. apply O. discriminate.
Defined.

(** ** Creating users *)

Lemma find_snoc_first {A} (f : A -> bool) (l : list A) (x : A) :
  find f l = None -> f x = true -> find f (l ++ [x]) = Some x.
Proof.
  intros N E. induction l as [|y l IH]; simpl in *; [now rewrite E|].
  destruct (f y); [discriminate | now apply IH].
Qed.

Lemma NoDup_snoc {A} (l : list A) (x : A) : NoDup l -> ~ In x l -> NoDup (l ++ [x]).
Proof.
  intros N I. apply NoDup_rev in N. rewrite <- (rev_involutive (l ++ [x])), rev_app_distr.
  apply NoDup_rev. simpl. constructor; [|exact N]. intro J. apply I. now apply in_rev.
Qed.

(** X4.  [create_user] keeps e-mail addresses unique: if no two stored
    users share an address before the call, none do after it, whatever the
    call answers. *)
Theorem create_user_keeps_emails_unique :
  forall dto s,
    NoDup (map UserEntity.email (users s)) ->
    NoDup (map UserEntity.email (users (snd (UserServiceImpl.create_user dto s)))).
Proof.
  intros dto s U. unfold UserServiceImpl.create_user, bind, query, raise.
  destruct (UserRepository.find_by_email (CreateUserDto.email dto) s) eqn:F; [exact U|].
  unfold UserRepository.save_or_update, CrudRepositoryORM.save_or_update.
  cbn [pk UserModel UserEntity.id].
  destruct (constraints s None _); [|exact U].
  cbn [snd set_rows rows UserModel users with_pk UserEntity.with_id].
  rewrite map_app. cbn [map UserEntity.email]. apply NoDup_snoc; [exact U|].
  intro I. apply in_map_iff in I as (u & E & I).
  unfold UserRepository.find_by_email in F. apply (find_none _ _ F) in I.
  rewrite E, String.eqb_refl in I. discriminate.
Qed.

Lemma create_user_keeps_emails_unique_witness :
  NoDup (map UserEntity.email
           (users (snd (UserServiceImpl.create_user
                          (CreateUserDto.mk (Some "Cy"%string) "Orr" "cy@example.org")
                          team_store))))
  /\ List.length
       (users (snd (UserServiceImpl.create_user
                      (CreateUserDto.mk (Some "Cy"%string) "Orr" "cy@example.org")
                      team_store))) = 3%nat.
Proof.
  split; [|reflexivity].
  apply create_user_keeps_emails_unique.
  simpl. repeat constructor; simpl; intuition discriminate.
Defined.

(** X5.  For an address that no stored user has, and a name, [create_user]
    returns the new user under a new key; the user is then found by
    address and by key, the users stored before are still stored, no other
    table changes, and the resource answers a validated body with 200. *)
Theorem create_user_then_lookup :
  forall dto s n,
    (forall u, In u (users s) -> UserEntity.email u <> CreateUserDto.email dto) ->
    CreateUserDto.name dto = Some n ->
    exists u s' i,
      UserServiceImpl.create_user dto s = (Return u, s')
      /\ u = UserEntity.mk (Some i) (Some n) (CreateUserDto.surname dto)
               (CreateUserDto.email dto)
      /\ UserServiceImpl.find_by_id i s = None
      /\ UserServiceImpl.find_by_id i s' = Some u
      /\ UserRepository.find_by_email (CreateUserDto.email dto) s' = Some u
      /\ UserServiceImpl.find_all_users s' = UserServiceImpl.find_all_users s ++ [u]
      /\ projects s' = projects s
      /\ tasks s' = tasks s
      /\ comments s' = comments s
      /\ task_history s' = task_history s
      /\ (forall email_ok body,
             CreateUserSchema.ok email_ok body = true ->
             CreateUserDto.mk (CreateUserSchema.name body) (CreateUserSchema.surname body)
               (CreateUserSchema.email body) = dto ->
             UserAddResource.post email_ok body s = (mkResponse 200 Data, s')).
Proof.
  intros dto s n N Nm.
  assert (F : UserRepository.find_by_email (CreateUserDto.email dto) s = None).
  { unfold UserRepository.find_by_email.
    destruct (find _ (users s)) as [u|] eqn:F; [|reflexivity].
    apply find_some in F as [I E]. apply String.eqb_eq in E. now apply N in I. }
  assert (R : UserServiceImpl.create_user dto s
              = (Return (UserEntity.mk (Some (next_pk (users s))) (Some n)
                           (CreateUserDto.surname dto) (CreateUserDto.email dto)),
                 mkStore
                   (users s ++ [UserEntity.mk (Some (next_pk (users s))) (Some n)
                                  (CreateUserDto.surname dto) (CreateUserDto.email dto)])
                   (projects s) (tasks s) (comments s) (task_history s) (enforce_fk s))).
  { unfold UserServiceImpl.create_user, bind, query. rewrite F, Nm. reflexivity. }
  eexists. eexists. exists (next_pk (users s)). split; [exact R|].
  split; [reflexivity|].
  assert (F0 : find (has_pk (next_pk (users s))) (users s) = None).
  { apply find_has_pk_none. intros x. apply next_pk_fresh. }
  split; [exact F0|].
  split; [apply (find_app_new _ (users s)); [exact F0 | reflexivity]|].
  split.
  { unfold UserRepository.find_by_email. cbn [users].
    apply find_snoc_first; [exact F | apply String.eqb_refl]. }
  split; [reflexivity|]. repeat (split; [reflexivity|]).
  intros email_ok body V D. unfold UserAddResource.post, validate.
  rewrite V, D, R. reflexivity.
Qed.

Lemma create_user_then_lookup_witness :
  exists u s',
    UserServiceImpl.create_user
      (CreateUserDto.mk (Some "Cy"%string) "Orr" "cy@example.org") team_store
    = (Return u, s')
    /\ UserRepository.find_by_email "cy@example.org" s' = Some u
    /\ UserEntity.id u = Some 3.
Proof.
  destruct (create_user_then_lookup
              (CreateUserDto.mk (Some "Cy"%string) "Orr" "cy@example.org") team_store
              "Cy"%string) as (u & s' & i & R & E & _ & _ & F & _).
  - intros u [<-|[<-|[]]]; discriminate.
  - reflexivity.
  - exists u, s'. split; [exact R|]. split; [exact F|].
    vm_compute in R. injection R as <- _. reflexivity.
Defined.

(** ** Comments *)

(** X6.  A validated POST of a comment for a task that is not stored is
    answered 400 and stores nothing.  For a stored task it is answered 201:
    one comment row is appended with the content and task of the body and
    the time of the request, it is then listed among the comments of that
    task, and no other table changes. *)
Theorem comment_creation_requires_task :
  forall now b s,
    CreateCommentSchema.ok b = true ->
    (TaskRepository.find_by_id (CreateCommentSchema.task_id b) s = None ->
     exists msg,
       CommentServiceImpl.create_task
         (CreateCommentDto.mk (CreateCommentSchema.content b) now
            (CreateCommentSchema.task_id b)) s
       = (Raise (ValueError msg), s)
       /\ CommentAddToTaskResource.post now b s
          = (mkResponse 400 (MessageError "Error processing the request" msg), s))
    /\ (forall t,
           TaskRepository.find_by_id (CreateCommentSchema.task_id b) s = Some t ->
           exists c s',
             CommentAddToTaskResource.post now b s
             = (mkResponse 201 (Message "Comment added successfully!"), s')
             /\ CommentEntity.content c = CreateCommentSchema.content b
             /\ CommentEntity.task_id c = CreateCommentSchema.task_id b
             /\ CommentEntity.creation_date c = now
             /\ CommentServiceImpl.find_all_comments s'
                = CommentServiceImpl.find_all_comments s ++ [c]
             /\ CommentRepository.find_by_task_id (CreateCommentSchema.task_id b) s'
                = CommentRepository.find_by_task_id (CreateCommentSchema.task_id b) s ++ [c]
             /\ users s' = users s
             /\ projects s' = projects s
             /\ tasks s' = tasks s
             /\ task_history s' = task_history s).
Proof.
  intros now b s V. split.
  - intro F. eexists.
    unfold CommentAddToTaskResource.post, validate. rewrite V.
    unfold CommentServiceImpl.create_task, bind, query, raise.
    cbn [CreateCommentDto.task_id]. rewrite F. split; reflexivity.
  - intros t F.
    set (c := CommentEntity.mk (Some (next_pk (comments s))) (CreateCommentSchema.content b)
                now (CreateCommentSchema.task_id b)).
    assert (R : CommentServiceImpl.create_task
                  (CreateCommentDto.mk (CreateCommentSchema.content b) now
                     (CreateCommentSchema.task_id b)) s
                = (Return c,
                   mkStore (users s) (projects s) (tasks s) (comments s ++ [c])
                     (task_history s) (enforce_fk s))).
    { unfold CommentServiceImpl.create_task, bind, query.
      cbn [CreateCommentDto.task_id CreateCommentDto.content
           CreateCommentDto.creation_date].
      rewrite F.
      unfold CommentRepository.save_or_update, CrudRepositoryORM.save_or_update.
      cbn [pk CommentModel CommentEntity.id constraints].
      rewrite (fk_ok_parent s _ None _ (CreateCommentSchema.task_id b) TaskEntity.id
                 (tasks s));
        [reflexivity | reflexivity | exact (references_pk _ (tasks s) t F)]. }
    exists c. eexists.
    unfold CommentAddToTaskResource.post, validate. rewrite V, R.
    split; [reflexivity|]. repeat (split; [reflexivity|]).
    split; [|repeat split].
    unfold CommentRepository.find_by_task_id. cbn [comments].
    rewrite filter_app. cbn [filter c CommentEntity.task_id].
    now rewrite Z.eqb_refl.
Qed.

Lemma comment_creation_requires_task_witness :
  (exists body,
      CommentAddToTaskResource.post 60 (CreateCommentSchema.mk "Looks fine" 5) demo_store
      = (mkResponse 400 body, demo_store))
  /\ (exists c s',
         CommentAddToTaskResource.post 60 (CreateCommentSchema.mk "Looks fine" 1) demo_store
         = (mkResponse 201 (Message "Comment added successfully!"), s')
         /\ CommentRepository.find_by_task_id 1 s' = [c]
         /\ CommentEntity.content c = "Looks fine"%string).
Proof.
  split.
  - destruct (comment_creation_requires_task 60 (CreateCommentSchema.mk "Looks fine" 5)
                demo_store eq_refl) as [M _].
    destruct (M eq_refl) as (msg & _ & P). eexists. exact P.
  - destruct (comment_creation_requires_task 60 (CreateCommentSchema.mk "Looks fine" 1)
                demo_store eq_refl) as [_ A].
    destruct (A _ eq_refl) as (c & s' & P & Ec & _ & _ & _ & L & _).
    exists c, s'. split; [exact P|]. split; [exact L | exact Ec].
Defined.

(** X7.  [PUT] on a comment never changes a comment: the answer is 400 for
    a body that fails validation, 404 when the comment is not stored and
    500 when it is, and the store is the same afterwards in every case. *)
Theorem comment_put_never_updates :
  forall now id_ b s,
    snd (CommentResourceID.put now id_ b s) = s
    /\ (CreateCommentSchema.ok b = false ->
        status_code (fst (CommentResourceID.put now id_ b s)) = 400)
    /\ (CreateCommentSchema.ok b = true ->
        CommentServiceImpl.find_by_id id_ s = None ->
        status_code (fst (CommentResourceID.put now id_ b s)) = 404)
    /\ (forall c,
           CreateCommentSchema.ok b = true ->
           CommentServiceImpl.find_by_id id_ s = Some c ->
           status_code (fst (CommentResourceID.put now id_ b s)) = 500).
Proof.
  intros now id_ b s. unfold CommentResourceID.put, validate.
  destruct (CreateCommentSchema.ok b);
    destruct (CommentServiceImpl.find_by_id id_ s); cbn;
    repeat split; intros; congruence.
Qed.

(** ** Projects of a user *)

(** X8.  [get_user_projects] raises [ValueError] for a user that is not
    stored, and the resource answers 404.  For a stored user it returns
    exactly the stored projects whose [user_id] is the user's key, in table
    order; the resource answers 404 when there are none and 200
    otherwise.  The store is never changed. *)
Theorem user_projects_listing :
  forall id_ s,
    (UserServiceImpl.find_by_id id_ s = None ->
     exists msg,
       UserServiceImpl.get_user_projects id_ s = (Raise (ValueError msg), s)
       /\ UserProjectResource.get id_ s = (mkResponse 404 (Message msg), s))
    /\ (forall u,
           UserServiceImpl.find_by_id id_ s = Some u ->
           UserServiceImpl.get_user_projects id_ s
           = (Return (filter (fun p => ProjectEntity.user_id p =? id_) (projects s)), s)
           /\ (forall p,
                  In p (filter (fun p => ProjectEntity.user_id p =? id_) (projects s))
                  <-> In p (projects s) /\ ProjectEntity.user_id p = id_)
           /\ snd (UserProjectResource.get id_ s) = s
           /\ status_code (fst (UserProjectResource.get id_ s))
              = if existsb (fun p => ProjectEntity.user_id p =? id_) (projects s)
                then 200 else 404).
Proof.
  intros id_ s. split.
  - intro F. eexists.
    unfold UserProjectResource.get, UserServiceImpl.get_user_projects,
      UserRepository.get_user_projects, bind, query, raise.
    unfold UserServiceImpl.find_by_id in F. rewrite F. split; reflexivity.
  - intros u F.
    assert (R : UserServiceImpl.get_user_projects id_ s
                = (Return (filter (fun p => ProjectEntity.user_id p =? id_) (projects s)),
                   s)).
    { unfold UserServiceImpl.get_user_projects, UserRepository.get_user_projects,
        bind, query.
      unfold UserServiceImpl.find_by_id in F. rewrite F.
      unfold UserRepository.user_projects.
      destruct (find_has_pk _ _ _ F) as [_ P]. cbn [pk UserModel] in P. now rewrite P. }
    split; [exact R|]. split.
    { intro p. rewrite filter_In, Z.eqb_eq. reflexivity. }
    unfold UserProjectResource.get. rewrite R. clear R.
    induction (projects s) as [|p l IH]; [split; reflexivity|].
    cbn [filter existsb]. destruct (ProjectEntity.user_id p =? id_); [split; reflexivity|].
    exact IH.
Qed.

Lemma user_projects_listing_witness :
  status_code (fst (UserProjectResource.get 9 team_store)) = 404
  /\ status_code (fst (UserProjectResource.get 1 team_store)) = 200
  /\ status_code (fst (UserProjectResource.get 2 team_store)) = 404
  /\ fst (UserServiceImpl.get_user_projects 1 team_store) = Return (projects team_store).
Proof.
  destruct (user_projects_listing 9 team_store) as [M _].
  destruct (M eq_refl) as (msg & _ & E9).
  destruct (user_projects_listing 1 team_store) as [_ A1].
  destruct (A1 _ eq_refl) as (R1 & _ & _ & E1).
  destruct (user_projects_listing 2 team_store) as [_ A2].
  destruct (A2 _ eq_refl) as (_ & _ & _ & E2).
  split; [now rewrite E9|]. split; [exact E1|]. split; [exact E2|].
  now rewrite R1.
Defined.

Lemma comment_put_never_updates_witness :
  status_code (fst (CommentResourceID.put 60 9 (CreateCommentSchema.mk "Fine" 1) demo_store))
  = 404
  /\ status_code (fst (CommentResourceID.put 60 9 (CreateCommentSchema.mk "Fine" 0) demo_store))
     = 400
  /\ snd (CommentResourceID.put 60 9 (CreateCommentSchema.mk "Fine" 1) demo_store)
     = demo_store.
Proof.
  destruct (comment_put_never_updates 60 9 (CreateCommentSchema.mk "Fine" 1) demo_store)
    as (U & _ & N & _).
  destruct (comment_put_never_updates 60 9 (CreateCommentSchema.mk "Fine" 0) demo_store)
    as (_ & V & _).
  split; [apply N; reflexivity|]. split; [apply V; reflexivity | exact U].
Defined.

(** ** Filtering *)

(** X9.  [find_all_filtered_by_date] raises [ValueError], at the
    repository and at the service, for a field other than [start_date] and
    [end_date].  For [start_date] it returns exactly the stored projects
    that start on the given day, for [end_date] exactly those that end on
    it; a project without end date is never returned. *)
Theorem filtered_by_date_exact :
  forall input_date filter_by s,
    (filter_by <> "start_date"%string -> filter_by <> "end_date"%string ->
     (exists msg,
         ProjectRepository.find_all_filtered_by_date input_date filter_by s
         = (Raise (ValueError msg), s))
     /\ (exists msg,
            ProjectServiceImpl.find_all_filtered_by_date input_date filter_by s
            = (Raise (ValueError msg), s)))
    /\ (exists l,
           ProjectServiceImpl.find_all_filtered_by_date input_date "start_date" s
           = (Return l, s)
           /\ forall p, In p l <->
                        In p (projects s) /\ ProjectEntity.start_date p = input_date)
    /\ (exists l,
           ProjectServiceImpl.find_all_filtered_by_date input_date "end_date" s
           = (Return l, s)
           /\ forall p, In p l <->
                        In p (projects s) /\ ProjectEntity.end_date p = Some input_date).
Proof.
  intros input_date filter_by s. split; [|split].
  - intros N1 N2.
    assert (D : is_date_field filter_by = false).
    { unfold is_date_field, date_fields. simpl.
      apply String.eqb_neq in N1, N2. now rewrite N1, N2. }
    unfold ProjectServiceImpl.find_all_filtered_by_date,
      ProjectRepository.find_all_filtered_by_date, raise.
    rewrite D. split; eexists; reflexivity.
  - eexists. split; [reflexivity|].
    intro p. rewrite filter_In. cbn. rewrite Z.eqb_eq. reflexivity.
  - eexists. split; [reflexivity|].
    intro p. rewrite filter_In. cbn.
    destruct (ProjectEntity.end_date p) as [d|].
    + rewrite Z.eqb_eq. split; intros [I E]; (split; [exact I | congruence]).
    + split; intros [I E]; discriminate.
Qed.

Lemma filtered_by_date_exact_witness :
  (exists msg,
      ProjectServiceImpl.find_all_filtered_by_date 10 "name" dated_store
      = (Raise (ValueError msg), dated_store))
  /\ (exists l,
         ProjectServiceImpl.find_all_filtered_by_date 10 "start_date" dated_store
         = (Return l, dated_store)
         /\ map ProjectEntity.id l = [Some 2]).
Proof.
  destruct (filtered_by_date_exact 10 "name" dated_store) as (E & (l & R & _) & _).
  split.
  - apply E; discriminate.
  - exists l. split; [exact R|]. vm_compute in R. injection R as <-. reflexivity.
Defined.




(** ** Updating the status over HTTP *)



(** ** Sorted listings *)




(** The two sort endpoints pass the constant [start_date], and the
    date filter endpoint the constant field with a parsed date: on every
    store they answer 200 and leave the store as it is, the [ValueError]
    of the services cannot be reached from them.  The date filter answers
    400 when the date does not parse. *)
Theorem listing_endpoints_always_answer :
  forall s,
    TaskSortByStartDate.get s = (mkResponse 200 Data, s)
    /\ ProjectResourceSortByStartDateAsc.get s = (mkResponse 200 Data, s)
    /\ (forall strptime input_date,
           ProjectResourceFilterByStartDate.get strptime input_date s
           = (mkResponse (match strptime input_date with Some _ => 200 | None => 400 end)
                (match strptime input_date with
                 | Some _ => Data
                 | None => Message "Invalid date format. Use YYYY-MM-DD"
                 end), s)).
Proof.
  intro s. split; [reflexivity|]. split; [reflexivity|].
  intros strptime input_date. unfold ProjectResourceFilterByStartDate.get.
  destruct (strptime input_date); reflexivity.
Qed.

(** ** Deleting stored rows over HTTP *)




(** ** Composing the writes of the task service *)









(** ** Outcomes of the POST handlers *)

Lemma task_status_getitem_some (key : string) (m : TaskStatusEnum.t) :
  TaskStatusEnum.getitem key = Some m -> key = TaskStatusEnum.name m.
Proof.
  intro G. apply find_some in G as [_ E]. apply String.eqb_eq in E. now symmetry.
Qed.


(** X19.  A POST of a project is answered 201 or 400.  When it is answered
    201 the body passed validation and exactly one project row was
    appended, with the fields of the body and the member whose name is the
    status string; when it is answered 400 the store is as before. *)
Theorem project_post_outcomes :
  forall b s,
    (status_code (fst (ProjectResourceAdd.post b s)) = 201
     \/ status_code (fst (ProjectResourceAdd.post b s)) = 400)
    /\ (status_code (fst (ProjectResourceAdd.post b s)) = 400 ->
        snd (ProjectResourceAdd.post b s) = s)
    /\ (status_code (fst (ProjectResourceAdd.post b s)) = 201 ->
        CreateProjectSchema.ok b = true
        /\ exists p,
            projects (snd (ProjectResourceAdd.post b s)) = projects s ++ [p]
            /\ ProjectStatusEnum.name (ProjectEntity.status p) = CreateProjectSchema.status b
            /\ ProjectEntity.name p = CreateProjectSchema.name b
            /\ ProjectEntity.description p = CreateProjectSchema.description b
            /\ ProjectEntity.start_date p = CreateProjectSchema.start_date b
            /\ ProjectEntity.end_date p = CreateProjectSchema.end_date b
            /\ ProjectEntity.user_id p = CreateProjectSchema.user_id b
            /\ (forall q, In q (projects s) -> ProjectEntity.id q <> ProjectEntity.id p)
            /\ users (snd (ProjectResourceAdd.post b s)) = users s
            /\ tasks (snd (ProjectResourceAdd.post b s)) = tasks s
            /\ comments (snd (ProjectResourceAdd.post b s)) = comments s
            /\ task_history (snd (ProjectResourceAdd.post b s)) = task_history s).
Proof.
  intros b s. unfold ProjectResourceAdd.post, validate.
  destruct (CreateProjectSchema.ok b).
  2:{ cbn. split; [now right|]. split; [reflexivity | discriminate]. }
  destruct (ProjectStatusEnum.getitem (CreateProjectSchema.status b)) as [m|] eqn:G.
  2:{ cbn. split; [now right|]. split; [reflexivity | discriminate]. }
  apply project_status_getitem_some in G.
  unfold ProjectServiceImpl.create_project, ProjectRepository.save_or_update,
    CrudRepositoryORM.save_or_update.
  cbn [pk ProjectModel ProjectEntity.id].
  destruct (constraints s None _).
  - cbn [fst snd status_code with_pk ProjectModel ProjectEntity.with_id rows set_rows
         projects users tasks comments task_history].
    split; [now left|]. split; [discriminate|]. intros _. split; [reflexivity|].
    eexists. split; [reflexivity|].
    cbn [ProjectEntity.status ProjectEntity.name ProjectEntity.description
         ProjectEntity.start_date ProjectEntity.end_date ProjectEntity.user_id
         ProjectEntity.id CreateProjectDto.name CreateProjectDto.description
         CreateProjectDto.start_date CreateProjectDto.end_date CreateProjectDto.status
         CreateProjectDto.user_id].
    split; [now symmetry|]. repeat (split; [reflexivity|]).
    split; [|repeat split].
    intros q I. exact (@next_pk_fresh _ ProjectModel (projects s) q I).
  - cbn. split; [now right|]. split; [reflexivity | discriminate].
Qed.

(** ** Status names *)

(** X20.  The name of a status and the lookup by name are inverse to each
    other, for both enumerations.  The display value of a status is not a
    substitute for its name: no project status is found under its display
    value, and a task status is found under its upper-cased display value
    only when the value is a single word (Blocked, Completed,
    Cancelled). *)
Theorem status_name_round_trip :
  (forall m, ProjectStatusEnum.getitem (ProjectStatusEnum.name m) = Some m)
  /\ (forall key m, ProjectStatusEnum.getitem key = Some m -> ProjectStatusEnum.name m = key)
  /\ (forall m, TaskStatusEnum.getitem (TaskStatusEnum.name m) = Some m)
  /\ (forall key m, TaskStatusEnum.getitem key = Some m -> TaskStatusEnum.name m = key)
  /\ (forall m, ProjectStatusEnum.getitem (ProjectStatusEnum.value m) = None)
  /\ (forall m,
         TaskStatusEnum.getitem (upper (TaskStatusEnum.value m)) = Some m
         <-> m = TaskStatusEnum.BLOCKED \/ m = TaskStatusEnum.COMPLETED
             \/ m = TaskStatusEnum.CANCELLED).
Proof.
  split; [exact project_status_getitem_name|].
  split; [intros key m G; symmetry; now apply project_status_getitem_some|].
  split; [exact task_status_getitem_name|].
  split; [intros key m G; symmetry; now apply task_status_getitem_some|].
  split; [intros m; destruct m; reflexivity|].
  intros m. destruct m; cbn; split; intro E;
    first [discriminate | tauto | (destruct E as [E|[E|E]]; discriminate) | reflexivity].
Qed.


Lemma project_post_outcomes_witness :
  exists p,
    projects (snd (ProjectResourceAdd.post
                     (CreateProjectSchema.mk "Shop" "Web shop" 30 None "ON_HOLD" 1)
                     demo_store))
    = projects demo_store ++ [p]
    /\ ProjectEntity.status p = ProjectStatusEnum.ON_HOLD.
Proof.
  destruct (project_post_outcomes
              (CreateProjectSchema.mk "Shop" "Web shop" 30 None "ON_HOLD" 1) demo_store)
    as (_ & _ & A).
  destruct (A eq_refl) as (_ & p & E & St & _).
  exists p. split; [exact E|].
  destruct (ProjectEntity.status p); try discriminate. reflexivity.
Defined.

(** ** Invariants of the task service *)

Lemma map_id_set_null_where (i : Z) (l : list TaskHistoryEntity.t) :
  map TaskHistoryEntity.id (map (set_null_where i) l) = map TaskHistoryEntity.id l.
Proof.
  rewrite map_map. apply map_ext. intro h. unfold set_null_where.
  destruct (TaskHistoryEntity.task_id h) as [j|]; [|reflexivity].
  destruct (j =? i); reflexivity.
Qed.

Lemma history_snoc_keys_unique (s : Store) (d : string) (now : datetime) (i : Z) :
  NoDup (map TaskHistoryEntity.id (task_history s)) ->
  NoDup (map TaskHistoryEntity.id (task_history s ++ [history_row s d now i])).
Proof.
  intro U. rewrite map_app. apply NoDup_snoc; [exact U|].
  intro I. apply in_map_iff in I as (h & E & I).
  exact (@next_pk_fresh _ TaskHistoryModel (task_history s) h I E).
Qed.

(** X21.  The task service keeps primary keys unique: if the keys of
    [tasks] and of [task_history] are unique before [create_task],
    [change_status] or [delete_by_id], they are unique after it, whether
    the call returns or raises. *)
Theorem task_service_keeps_primary_keys_unique :
  forall s,
    NoDup (map TaskEntity.id (tasks s)) ->
    NoDup (map TaskHistoryEntity.id (task_history s)) ->
    (forall now dto,
        NoDup (map TaskEntity.id (tasks (snd (TaskServiceImpl.create_task now dto s))))
        /\ NoDup (map TaskHistoryEntity.id
                    (task_history (snd (TaskServiceImpl.create_task now dto s)))))
    /\ (forall now task_id new_status,
           NoDup (map TaskEntity.id
                    (tasks (snd (TaskServiceImpl.change_status now task_id new_status s))))
           /\ NoDup (map TaskHistoryEntity.id
                       (task_history
                          (snd (TaskServiceImpl.change_status now task_id new_status s)))))
    /\ (forall now task_id,
           NoDup (map TaskEntity.id
                    (tasks (snd (TaskServiceImpl.delete_by_id now task_id s))))
           /\ NoDup (map TaskHistoryEntity.id
                       (task_history (snd (TaskServiceImpl.delete_by_id now task_id s))))).
Proof.
  intros s U V. destruct (task_service_keeps_keys_unique s U) as (Tc & Ts & Td).
  split; [|split].
  - intros now dto. split; [apply Tc|].
    destruct (ProjectRepository.find_by_id (CreateTaskDto.project_id dto) s)
      as [project|] eqn:F.
    + rewrite (create_task_run now dto s project F). cbn [snd task_history].
      now apply history_snoc_keys_unique.
    + unfold TaskServiceImpl.create_task, bind, query, raise. now rewrite F.
  - intros now task_id new_status. split; [apply Ts|].
    destruct (TaskRepository.find_by_id task_id s) as [task|] eqn:F.
    + rewrite (change_status_run now task_id new_status s task F). cbn [snd task_history].
      now apply history_snoc_keys_unique.
    + unfold TaskServiceImpl.change_status, bind, query, raise. now rewrite F.
  - intros now task_id. split; [apply Td|].
    destruct (TaskRepository.find_by_id task_id s) as [task|] eqn:F.
    + rewrite (delete_by_id_run now task_id s task F).
      match goal with
      | |- context [TaskRepository.delete_by_id _ ?s1] =>
          rewrite (task_delete_run task_id s1 task F)
      end.
      cbn [enforce_fk comments task_history].
      destruct (enforce_fk s); cbn [andb].
      * destruct (references _ task_id (comments s)); cbn [snd task_history].
        -- now apply history_snoc_keys_unique.
        -- rewrite map_id_set_null_where. now apply history_snoc_keys_unique.
      * cbn [snd task_history]. now apply history_snoc_keys_unique.
    + unfold TaskServiceImpl.delete_by_id, bind, query, raise. now rewrite F.
Qed.

Lemma task_service_keeps_primary_keys_unique_witness :
  NoDup (map TaskEntity.id
           (tasks (snd (TaskServiceImpl.create_task 100 demo_dto demo_store))))
  /\ NoDup (map TaskHistoryEntity.id
              (task_history (snd (TaskServiceImpl.delete_by_id 101 1 demo_store)))).
Proof.
  assert (U : NoDup (map TaskEntity.id (tasks demo_store))).
  { simpl. constructor; [intros [] | constructor]. }
  assert (V : NoDup (map TaskHistoryEntity.id (task_history demo_store))).
  { simpl. constructor; [intros [] | constructor]. }
  destruct (task_service_keeps_primary_keys_unique demo_store U V) as (C & _ & D).
  split; [apply C | apply D].
Defined.

(** X22.  The task service keeps the tasks attached to stored projects: if
    the project of every stored task is stored before [create_task],
    [change_status] or [delete_by_id], the same holds after it, whether
    the call returns or raises, and the table of projects is not
    touched. *)
Theorem task_service_keeps_tasks_attached :
  forall s,
    tasks_reference_projects s ->
    (forall now dto,
        tasks_reference_projects (snd (TaskServiceImpl.create_task now dto s))
        /\ projects (snd (TaskServiceImpl.create_task now dto s)) = projects s)
    /\ (forall now task_id new_status,
           tasks_reference_projects
             (snd (TaskServiceImpl.change_status now task_id new_status s))
           /\ projects (snd (TaskServiceImpl.change_status now task_id new_status s))
              = projects s)
    /\ (forall now task_id,
           tasks_reference_projects (snd (TaskServiceImpl.delete_by_id now task_id s))
           /\ projects (snd (TaskServiceImpl.delete_by_id now task_id s)) = projects s).
Proof.
  intros s RI.
  assert (K : forall s', projects s' = projects s ->
                         (forall t, In t (tasks s') ->
                                    exists t0, In t0 (tasks s)
                                               /\ TaskEntity.project_id t
                                                  = TaskEntity.project_id t0) ->
                         tasks_reference_projects s').
  { intros s' P Q t I. destruct (Q t I) as (t0 & I0 & E).
    destruct (RI t0 I0) as [p F]. exists p. rewrite E.
    unfold ProjectRepository.find_by_id, CrudRepositoryORM.find_by_id in *.
    cbn [rows ProjectModel] in *. now rewrite P. }
  split; [|split].
  - intros now dto.
    destruct (ProjectRepository.find_by_id (CreateTaskDto.project_id dto) s)
      as [project|] eqn:F.
    + rewrite (create_task_run now dto s project F). cbn [snd]. split; [|reflexivity].
      intros t I. cbn [tasks] in I. apply in_app_or in I as [I|[<-|[]]].
      * destruct (RI t I) as [p Fp]. exists p. exact Fp.
      * exists project. exact F.
    + unfold TaskServiceImpl.create_task, bind, query, raise. rewrite F.
      split; [exact RI | reflexivity].
  - intros now task_id new_status.
    destruct (TaskRepository.find_by_id task_id s) as [task|] eqn:F.
    + rewrite (change_status_run now task_id new_status s task F). cbn [snd].
      split; [|reflexivity]. apply K; [reflexivity|].
      intros t I. cbn [tasks] in I. apply in_map_iff in I as (r & E & I).
      destruct (has_pk task_id r).
      * exists task. split; [exact (proj1 (find_has_pk _ _ _ F))|]. now subst t.
      * exists r. split; [exact I | now subst t].
    + unfold TaskServiceImpl.change_status, bind, query, raise. rewrite F.
      split; [exact RI | reflexivity].
  - intros now task_id.
    destruct (TaskRepository.find_by_id task_id s) as [task|] eqn:F.
    + rewrite (delete_by_id_run now task_id s task F).
      match goal with
      | |- context [TaskRepository.delete_by_id _ ?s1] =>
          rewrite (task_delete_run task_id s1 task F)
      end.
      destruct (_ && _); cbn [snd]; (split; [|reflexivity]); (apply K; [reflexivity|]);
        intros t I; cbn [tasks] in I; exists t.
      * split; [exact I | reflexivity].
      * apply filter_In in I as [I _]. split; [exact I | reflexivity].
    + unfold TaskServiceImpl.delete_by_id, bind, query, raise. rewrite F.
      split; [exact RI | reflexivity].
Qed.

Lemma task_service_keeps_tasks_attached_witness :
  tasks_reference_projects demo_store
  /\ tasks_reference_projects (snd (TaskServiceImpl.create_task 100 demo_dto demo_store)).
Proof.
  assert (RI : tasks_reference_projects demo_store).
  { intros t [<-|[]]. eexists. reflexivity. }
  split; [exact RI|].
  apply (task_service_keeps_tasks_attached demo_store RI).
Defined.

(** ** Assignment of users to projects, in general *)

(** X23.  [assign_user_to_project] never returns and never writes: it
    raises [ValueError] when the user or the project is not stored and
    [TypeError] when both are, and the store is the same afterwards. *)
Theorem assign_user_to_project_always_raises :
  forall user_id project_id s,
    snd (UserServiceImpl.assign_user_to_project user_id project_id s) = s
    /\ (UserRepository.find_by_id user_id s = None
        \/ ProjectRepository.find_by_id project_id s = None ->
        exists msg,
          fst (UserServiceImpl.assign_user_to_project user_id project_id s)
          = Raise (ValueError msg))
    /\ (UserRepository.find_by_id user_id s <> None ->
        ProjectRepository.find_by_id project_id s <> None ->
        exists msg,
          fst (UserServiceImpl.assign_user_to_project user_id project_id s)
          = Raise (TypeError msg)).
Proof.
  intros user_id project_id s.
  unfold UserServiceImpl.assign_user_to_project.
  destruct (UserRepository.find_by_id user_id s) as [u|] eqn:U;
    destruct (ProjectRepository.find_by_id project_id s) as [p|] eqn:P.
  - destruct (assign_existing_sides_raises_type_error user_id project_id s u p U P)
      as [msg E].
    rewrite E. split; [reflexivity|]. split.
    + intros [X|X]; discriminate.
    + intros _ _. exists msg. reflexivity.
  - destruct (assign_missing_side_raises_value_error user_id project_id s
                (or_intror P)) as [msg E].
    rewrite E. split; [reflexivity|]. split.
    + intros _. exists msg. reflexivity.
    + intros _ X. now elim X.
  - destruct (assign_missing_side_raises_value_error user_id project_id s
                (or_introl U)) as [msg E].
    rewrite E. split; [reflexivity|]. split.
    + intros _. exists msg. reflexivity.
    + intros X. now elim X.
  - destruct (assign_missing_side_raises_value_error user_id project_id s
                (or_introl U)) as [msg E].
    rewrite E. split; [reflexivity|]. split.
    + intros _. exists msg. reflexivity.
    + intros X. now elim X.
Qed.

Lemma assign_user_to_project_always_raises_witness :
  (exists msg,
      fst (UserServiceImpl.assign_user_to_project 1 1 team_store) = Raise (TypeError msg))
  /\ (exists msg,
         fst (UserServiceImpl.assign_user_to_project 1 5 team_store)
         = Raise (ValueError msg)).
Proof.
  destruct (assign_user_to_project_always_raises 1 1 team_store) as (_ & _ & T).
  destruct (assign_user_to_project_always_raises 1 5 team_store) as (_ & V & _).
  split; [apply T; discriminate | apply V; now right].
Defined.

(** ** What is added can be fetched, what is deleted cannot *)

(** X24.  A row added over HTTP can be fetched: after a POST of a task
    answered 201, GET on the key of the new task answers 200; after a POST
    of a project answered 201, GET by the name of the body answers 200;
    after a POST of a comment answered 201, GET on the key of the new
    comment answers 200. *)
Theorem added_rows_can_be_fetched :
  (forall now b s,
      status_code (fst (TaskAddToProjectResource.post now b s)) = 201 ->
      TaskServiceImpl.find_by_id (next_pk (tasks s)) s = None
      /\ status_code
           (fst (TaskResourceID.get (next_pk (tasks s))
                   (snd (TaskAddToProjectResource.post now b s)))) = 200)
  /\ (forall b s,
         status_code (fst (ProjectResourceAdd.post b s)) = 201 ->
         status_code
           (fst (ProjectResource.get (CreateProjectSchema.name b)
                   (snd (ProjectResourceAdd.post b s)))) = 200
         /\ status_code
              (fst (ProjectResourceID.get (next_pk (projects s))
                      (snd (ProjectResourceAdd.post b s)))) = 200)
  /\ (forall now b s,
         status_code (fst (CommentAddToTaskResource.post now b s)) = 201 ->
         status_code
           (fst (CommentResourceID.get (next_pk (comments s))
                   (snd (CommentAddToTaskResource.post now b s)))) = 200).
Proof.
  split; [|split].
  - intros now b s E.
    assert (F0 : find (has_pk (next_pk (tasks s))) (tasks s) = None).
    { apply find_has_pk_none. intros x. apply next_pk_fresh. }
    split; [exact F0|].
    unfold TaskAddToProjectResource.post, validate in *.
    destruct (CreateTaskSchema.ok b); [|discriminate].
    destruct (TaskStatusEnum.getitem (upper (CreateTaskSchema.status b))) as [m|];
      [|discriminate].
    destruct (ProjectRepository.find_by_id (CreateTaskSchema.project_id b) s)
      as [p|] eqn:F.
    + rewrite (create_task_run now
                 (CreateTaskDto.mk (CreateTaskSchema.title b)
                    (CreateTaskSchema.description b) (CreateTaskSchema.start_date b)
                    (CreateTaskSchema.end_date b) m (CreateTaskSchema.project_id b))
                 s p F).
      cbn [snd]. unfold TaskResourceID.get, TaskServiceImpl.find_by_id,
        TaskRepository.find_by_id, CrudRepositoryORM.find_by_id.
      cbn [rows TaskModel tasks].
      match goal with
      | |- context [find _ (tasks s ++ [?x])] =>
          assert (F1 : find (has_pk (next_pk (tasks s))) (tasks s ++ [x]) = Some x)
            by (apply (find_app_new (next_pk (tasks s)) (tasks s)); [exact F0 | reflexivity])
      end.
      rewrite F1. reflexivity.
    + unfold TaskServiceImpl.create_task, bind, query, raise in E.
      cbn [CreateTaskDto.project_id] in E. rewrite F in E. discriminate.
  - intros b s E.
    unfold ProjectResourceAdd.post, validate in *.
    destruct (CreateProjectSchema.ok b); [|discriminate].
    destruct (ProjectStatusEnum.getitem (CreateProjectSchema.status b)) as [m|];
      [|discriminate].
    unfold ProjectServiceImpl.create_project, ProjectRepository.save_or_update,
      CrudRepositoryORM.save_or_update in *.
    cbn [pk ProjectModel ProjectEntity.id] in *.
    destruct (constraints s None _); [|discriminate].
    cbn [snd set_rows rows ProjectModel with_pk ProjectEntity.with_id].
    split.
    + unfold ProjectResource.get, ProjectServiceImpl.find_by_name,
        ProjectRepository.find_by_name. cbn [projects].
      match goal with
      | |- context [find ?f (?l ++ [?x])] =>
          destruct (find f (l ++ [x])) eqn:G; [reflexivity|];
          assert (I : In x (l ++ [x])) by (apply in_or_app; right; now left);
          apply (find_none _ _ G) in I
      end.
      cbn [ProjectEntity.name CreateProjectDto.name] in I.
      rewrite String.eqb_refl in I. discriminate.
    + unfold ProjectResourceID.get, ProjectServiceImpl.find_by_id,
        ProjectRepository.find_by_id, CrudRepositoryORM.find_by_id.
      cbn [rows ProjectModel projects].
      match goal with
      | |- context [find _ (projects s ++ [?x])] =>
          assert (F1 : find (has_pk (next_pk (projects s))) (projects s ++ [x]) = Some x)
      end.
      { apply (find_app_new (next_pk (projects s)) (projects s)); [|reflexivity].
        apply find_has_pk_none. intros x. apply next_pk_fresh. }
      rewrite F1. reflexivity.
  - intros now b s E.
    unfold CommentAddToTaskResource.post, validate in *.
    destruct (CreateCommentSchema.ok b); [|discriminate].
    unfold CommentServiceImpl.create_task, bind, query, raise in *.
    destruct (TaskRepository.find_by_id _ s); [|discriminate].
    unfold CommentRepository.save_or_update, CrudRepositoryORM.save_or_update in *.
    cbn [pk CommentModel CommentEntity.id] in *.
    destruct (constraints s None _); [|discriminate].
    cbn [snd set_rows rows CommentModel with_pk CommentEntity.with_id].
    unfold CommentResourceID.get, CommentServiceImpl.find_by_id,
      CommentRepository.find_by_id, CrudRepositoryORM.find_by_id.
    cbn [rows CommentModel comments].
    match goal with
    | |- context [find _ (comments s ++ [?x])] =>
        assert (F1 : find (has_pk (next_pk (comments s))) (comments s ++ [x]) = Some x)
    end.
    { apply (find_app_new (next_pk (comments s)) (comments s)); [|reflexivity].
      apply find_has_pk_none. intros x. apply next_pk_fresh. }
    rewrite F1. reflexivity.
Qed.

Lemma added_rows_can_be_fetched_witness :
  status_code
    (fst (TaskResourceID.get 2
            (snd (TaskAddToProjectResource.post 100
                    (CreateTaskSchema.mk "Review" "Second pass" 20 None "in_progress" 1)
                    demo_store)))) = 200
  /\ status_code
       (fst (ProjectResource.get "Shop"
               (snd (ProjectResourceAdd.post
                       (CreateProjectSchema.mk "Shop" "Web shop" 30 None "PLANNED" 1)
                       demo_store)))) = 200.
Proof.
  destruct added_rows_can_be_fetched as (T & P & _).
  split.
  - exact (proj2 (T 100 (CreateTaskSchema.mk "Review" "Second pass" 20 None "in_progress" 1)
                    demo_store eq_refl)).
  - exact (proj1 (P (CreateProjectSchema.mk "Shop" "Web shop" 30 None "PLANNED" 1)
                    demo_store eq_refl)).
Defined.

(** X25.  [DELETE] on a stored task that has no comment is answered 200;
    afterwards GET on the task answers 404, a second DELETE answers 500
    and changes nothing, and the history lists one more row than
    before. *)
Theorem deleted_task_is_gone :
  forall now now' id_ s task,
    TaskServiceImpl.find_by_id id_ s = Some task ->
    CommentRepository.find_by_task_id id_ s = [] ->
    exists s',
      TaskResourceID.delete now id_ s = (mkResponse 200 (Message "Task deleted"), s')
      /\ TaskResourceID.get id_ s' = (mkResponse 404 (Message "Task not found"), s')
      /\ TaskResourceID.delete now' id_ s'
         = (mkResponse 500 (Message "Task not deleted"), s')
      /\ List.length (TaskHistoryRepository.find_all s')
         = S (List.length (TaskHistoryRepository.find_all s)).
Proof.
  intros now now' id_ s task F E.
  assert (X : references (fun c => Some (CommentEntity.task_id c)) id_ (comments s) = false)
    by exact (filter_nil_existsb _ _ E).
  unfold TaskResourceID.delete at 1. rewrite F.
  rewrite (delete_by_id_run now id_ s task F).
  match goal with
  | |- context [TaskRepository.delete_by_id _ ?s1] =>
      rewrite (task_delete_run id_ s1 task F)
  end.
  cbn [enforce_fk comments task_history tasks users projects].
  rewrite X, andb_false_r. eexists. split; [reflexivity|].
  assert (N : forall st, tasks st = filter (fun r => negb (has_pk id_ r)) (tasks s) ->
                         TaskServiceImpl.find_by_id id_ st = None).
  { intros st Et. unfold TaskServiceImpl.find_by_id, TaskRepository.find_by_id,
      CrudRepositoryORM.find_by_id. cbn [rows TaskModel]. rewrite Et.
    apply (find_filter_same id_ (tasks s)). }
  match goal with
  | |- TaskResourceID.get id_ ?st = _ /\ _ => pose proof (N st eq_refl) as N'
  end.
  unfold TaskResourceID.get, TaskResourceID.delete.
  rewrite N'. split; [reflexivity|]. split; [reflexivity|].
  unfold TaskHistoryRepository.find_all, CrudRepositoryORM.find_all.
  cbn [rows TaskHistoryModel task_history].
  destruct (enforce_fk s); [rewrite length_map|]; rewrite length_app; cbn; lia.
Qed.

Lemma deleted_task_is_gone_witness :
  exists s',
    TaskResourceID.delete 101 1 demo_store = (mkResponse 200 (Message "Task deleted"), s')
    /\ TaskResourceID.get 1 s' = (mkResponse 404 (Message "Task not found"), s').
Proof.
  destruct (deleted_task_is_gone 101 102 1 demo_store _ eq_refl eq_refl)
    as (s' & D & G & _).
  exists s'. split; [exact D | exact G].
Defined.
